(** * The web-fetch subsystem of [tools/web_tool.py]

    A shallow embedding of the SSRF guard, the TTL cache, the title and
    text extractors and the [fetch_webpage] / [clear_web_cache] /
    [web_search] tools,
    together with the properties the specification states about them.

    Conventions of the embedding.
    - A Python [str] is a [string]; a character is an 8-bit code point
      (the Latin-1 range of Unicode).
    - A Python [int] is a [Z].
    - [time.time()] is read by the caller and passed in as a rational [Q],
      the value of the binary64 number it returns; the subtraction of two
      readings rounds as the hardware does ([Float.sub]).
    - The module-level dictionary [_fetch_cache] is threaded through the
      functions that touch it as a [gmap string (string * Q)].
    - What the tool obtains from outside the repository (the [requests]
      and [bs4] packages, the network) is a field of the record [Env]. *)

From Stdlib Require Import ZArith NArith QArith Qround Qpower Lqa Lia Bool Ascii String List.
From stdpp Require Import base option list gmap strings pretty.

Local Open Scope string_scope.
Local Open Scope Z_scope.

(** ** Python built-ins used by the tool *)

Module Py.

Definition code (c : ascii) : Z := Z.of_N (N_of_ascii c).

Definition between (lo hi : Z) (c : ascii) : bool :=
  (lo <=? code c) && (code c <=? hi).

(** [str.isspace] on one character. *)
Definition isspace (c : ascii) : bool :=
  between 9 13 c || between 28 32 c || (code c =? 133) || (code c =? 160).

Definition isdigit_ascii (c : ascii) : bool := between 48 57 c.

Definition isalpha_ascii (c : ascii) : bool :=
  between 65 90 c || between 97 122 c.

Definition ishex (c : ascii) : bool :=
  between 48 57 c || between 65 70 c || between 97 102 c.

(** [str.lower] on one character: A-Z and the upper-case letters of
    Latin-1 (all of 0xC0-0xDE but the multiplication sign). *)
Definition lower_char (c : ascii) : ascii :=
  if between 65 90 c || (between 192 222 c && negb (code c =? 215))
  then ascii_of_N (Z.to_N (code c + 32))
  else c.

Fixpoint map_chars (f : ascii -> ascii) (s : string) : string :=
  match s with
  | EmptyString => EmptyString
  | String c r => String (f c) (map_chars f r)
  end.

Definition lower (s : string) : string := map_chars lower_char s.

Fixpoint all_chars (p : ascii -> bool) (s : string) : bool :=
  match s with
  | EmptyString => true
  | String c r => p c && all_chars p r
  end.

Fixpoint contains_char (x : ascii) (s : string) : bool :=
  match s with
  | EmptyString => false
  | String c r => Ascii.eqb c x || contains_char x r
  end.

Fixpoint filter_chars (p : ascii -> bool) (s : string) : string :=
  match s with
  | EmptyString => EmptyString
  | String c r => if p c then String c (filter_chars p r) else filter_chars p r
  end.

Fixpoint rev_onto (s acc : string) : string :=
  match s with
  | EmptyString => acc
  | String c r => rev_onto r (String c acc)
  end.

Definition rev (s : string) : string := rev_onto s EmptyString.

Fixpoint lstrip_by (p : ascii -> bool) (s : string) : string :=
  match s with
  | EmptyString => EmptyString
  | String c r => if p c then lstrip_by p r else s
  end.

Definition rstrip_by (p : ascii -> bool) (s : string) : string :=
  rev (lstrip_by p (rev s)).

(** [s.strip()] *)
Definition strip (s : string) : string :=
  rstrip_by isspace (lstrip_by isspace s).

(** [s.startswith(prefix)] *)
Fixpoint startswith (prefix s : string) : bool :=
  match prefix, s with
  | EmptyString, _ => true
  | String p ps, String c r => Ascii.eqb p c && startswith ps r
  | String _ _, EmptyString => false
  end.

(** [len(s)] *)
Definition len (s : string) : Z := Z.of_nat (String.length s).

(** [s[:n]] for [0 <= n], counting down a binary number so that large
    bounds cost nothing. *)
Fixpoint take (n : N) (s : string) : string :=
  match s with
  | EmptyString => EmptyString
  | String c r => if (n =? 0)%N then EmptyString else String c (take (N.pred n) r)
  end.

(** [s[n:]] for [0 <= n]. *)
Fixpoint drop (n : N) (s : string) : string :=
  match s with
  | EmptyString => EmptyString
  | String c r => if (n =? 0)%N then s else drop (N.pred n) r
  end.

(** [s[:n]] for any integer [n]: a negative bound counts from the end. *)
Definition slice_to (s : string) (n : Z) : string :=
  if n <? 0 then take (Z.to_N (Z.max 0 (len s + n))) s
  else take (Z.to_N n) s.

(** [s.find(c)], [None] for Python's -1. *)
Fixpoint find_char (x : ascii) (s : string) : option Z :=
  match s with
  | EmptyString => None
  | String c r =>
      if Ascii.eqb c x then Some 0
      else match find_char x r with
           | Some i => Some (i + 1)
           | None => None
           end
  end.

(** [s.partition(sep)] for a one-character separator; the middle
    component tells whether the separator was found. *)
Fixpoint partition (sep : ascii) (s : string) : string * bool * string :=
  match s with
  | EmptyString => (EmptyString, false, EmptyString)
  | String c r =>
      if Ascii.eqb c sep then (EmptyString, true, r)
      else let '(a, found, b) := partition sep r in (String c a, found, b)
  end.

Fixpoint after_last (sep : ascii) (s : string) : option string :=
  match s with
  | EmptyString => None
  | String c r =>
      match after_last sep r with
      | Some t => Some t
      | None => if Ascii.eqb c sep then Some r else None
      end
  end.

(** [s.rpartition(sep)[2]] *)
Definition rpartition_2 (sep : ascii) (s : string) : string :=
  match after_last sep s with
  | Some t => t
  | None => s
  end.

(** [s.split(sep)] for a one-character separator. *)
Fixpoint split (sep : ascii) (s : string) : list string :=
  match s with
  | EmptyString => [EmptyString]
  | String c r =>
      if Ascii.eqb c sep then EmptyString :: split sep r
      else match split sep r with
           | h :: t => String c h :: t
           | [] => [String c EmptyString]
           end
  end.

(** [sep.join(parts)] *)
Fixpoint join (sep : string) (parts : list string) : string :=
  match parts with
  | [] => EmptyString
  | [p] => p
  | p :: rest => p ++ sep ++ join sep rest
  end.

Definition digit_value (c : ascii) : Z :=
  if between 48 57 c then code c - 48
  else if between 65 70 c then code c - 55
  else code c - 87.

Fixpoint int_digits (base acc : Z) (s : string) : Z :=
  match s with
  | EmptyString => acc
  | String c r => int_digits base (acc * base + digit_value c) r
  end.

(** [int(s, base)] on a non-empty string of digits of that base. *)
Definition int_of (base : Z) (s : string) : Z := int_digits base 0 s.

Definition hex_digit (d : Z) : ascii :=
  ascii_of_N (Z.to_N (if d <? 10 then 48 + d else 87 + d)).

Fixpoint hex_go (fuel : nat) (n : Z) (acc : string) : string :=
  match fuel with
  | O => acc
  | S k =>
      let acc' := String (hex_digit (n mod 16)) acc in
      if n / 16 =? 0 then acc' else hex_go k (n / 16) acc'
  end.

(** ['%x' % n] for [0 <= n < 2^16]. *)
Definition hex16 (n : Z) : string := hex_go 4 n EmptyString.

(** [f"{n}"] for an integer. *)
Definition str_of_int (n : Z) : string := pretty n.

(** The longest prefix of [s] free of characters satisfying [stop],
    and what follows it. *)
Fixpoint until (stop : ascii -> bool) (s : string) : string :=
  match s with
  | EmptyString => EmptyString
  | String c r => if stop c then EmptyString else String c (until stop r)
  end.

Fixpoint from (stop : ascii -> bool) (s : string) : string :=
  match s with
  | EmptyString => EmptyString
  | String c r => if stop c then s else from stop r
  end.

Definition LF : string := String (ascii_of_N 10) EmptyString.

End Py.

(** ** Python's [float] arithmetic, as far as the cache uses it *)

(** A finite Python [float] is an IEEE 754 binary64 number; the model
    carries its value, a rational.  [x - y] on floats is the exact
    difference rounded to the nearest binary64 number, ties to the even
    significand.  Overflow is left out: clock readings are far from the
    threshold [2^1024], and an infinity compares with 300 as the finite
    value of the same sign computed here does. *)
Module Float.

(** [floor(log2 q)] for [0 < q]. *)
Definition ilog2 (q : Q) : Z :=
  if Qle_bool 1 q then Z.log2 (Qfloor q)
  else - Z.log2_up (Qceiling (/ q)).

(** The integer nearest to [x], the even one of two that are equally
    near. *)
Definition round_half_even (x : Q) : Z :=
  let f := Qfloor x in
  match (x - inject_Z f ?= 1 # 2)%Q with
  | Lt => f
  | Gt => f + 1
  | Eq => if Z.even f then f else f + 1
  end.

(** The binary64 number nearest to [a], for [0 < a]: 53 significant
    bits, and steps of [2^-1074] among the subnormal numbers. *)
Definition round_pos (a : Q) : Q :=
  let e := Z.max (ilog2 a - 52) (-1074) in
  (inject_Z (round_half_even (a / 2 ^ e)) * 2 ^ e)%Q.

Definition round (q : Q) : Q :=
  match (q ?= 0)%Q with
  | Eq => 0%Q
  | Gt => round_pos q
  | Lt => (- round_pos (- q))%Q
  end.

(** [x - y] *)
Definition sub (x y : Q) : Q := round (x - y).

End Float.

(** ** The [ipaddress] module, as far as the guard uses it *)

Module Ip.

Inductive IPAddress :=
| V4 (ip : Z)
| V6 (ip : Z) (scope_id : option string).

Definition version (a : IPAddress) : Z :=
  match a with V4 _ => 4 | V6 _ _ => 6 end.

Definition ip_int (a : IPAddress) : Z :=
  match a with V4 n => n | V6 n _ => n end.

(** [IPv4Address._parse_octet]; [None] stands for the [ValueError]. *)
Definition _parse_octet (octet_str : string) : option Z :=
  match octet_str with
  | EmptyString => None
  | String c0 _ =>
      if negb (Py.all_chars Py.isdigit_ascii octet_str) then None
      else if 3 <? Py.len octet_str then None
      else if negb (String.eqb octet_str "0") && Ascii.eqb c0 "0" then None
      else
        let octet_int := Py.int_of 10 octet_str in
        if 255 <? octet_int then None else Some octet_int
  end.

(** [int.from_bytes(octets, 'big')] *)
Definition from_bytes (octets : list Z) : Z :=
  fold_left (fun acc b => acc * 256 + b) octets 0.

Definition v4_int_from_string (ip_str : string) : option Z :=
  match ip_str with
  | EmptyString => None
  | _ =>
      let octets := Py.split "." ip_str in
      if negb (Nat.eqb (length octets) 4) then None
      else from_bytes <$> mapM _parse_octet octets
  end.

(** [IPv4Address(address)] on a string; [None] is [AddressValueError]. *)
Definition IPv4Address (address : string) : option Z :=
  if Py.contains_char "/" address then None
  else v4_int_from_string address.

(** [IPv6Address._parse_hextet] *)
Definition _parse_hextet (hextet_str : string) : option Z :=
  if negb (Py.all_chars Py.ishex hextet_str) then None
  else if 4 <? Py.len hextet_str then None
  else match hextet_str with
       | EmptyString => None
       | _ => Some (Py.int_of 16 hextet_str)
       end.

(** The indices [i] with [1 <= i < len(parts) - 1] and [parts[i]] empty. *)
Definition inner_empty_parts (parts : list string) : list nat :=
  filter (fun i => bool_decide (parts !! i = Some EmptyString))
         (seq 1 (length parts - 2)).

Definition shift_in (hextets : list Z) (acc : Z) : Z :=
  fold_left (fun a h => Z.lor (Z.shiftl a 16) h) hextets acc.

Definition v6_int_from_string (ip_str : string) : option Z :=
  match ip_str with
  | EmptyString => None
  | _ =>
      let parts := Py.split ":" ip_str in
      if (length parts <? 3)%nat then None
      else
        parts ←
          (let last_part := List.last parts EmptyString in
           if Py.contains_char "." last_part then
             ipv4_int ← IPv4Address last_part;
             Some (app (removelast parts)
                     [Py.hex16 (Z.land (Z.shiftr ipv4_int 16) 65535);
                      Py.hex16 (Z.land ipv4_int 65535)])
           else Some parts);
        if (9 <? length parts)%nat then None
        else
          let n := length parts in
          let first_empty := bool_decide (parts !! 0%nat = Some EmptyString) in
          let last_empty :=
            bool_decide (parts !! (n - 1)%nat = Some EmptyString) in
          '(parts_hi, parts_lo, parts_skipped) ←
            match inner_empty_parts parts with
            | [] =>
                if negb (Nat.eqb n 8) then None
                else if first_empty then None
                else if last_empty then None
                else Some (n, 0%nat, 0%nat)
            | [skip_index] =>
                let hi := skip_index in
                let lo := (n - skip_index - 1)%nat in
                hi ← (if first_empty
                      then (if Nat.eqb (hi - 1) 0 then Some (hi - 1)%nat else None)
                      else Some hi);
                lo ← (if last_empty
                      then (if Nat.eqb (lo - 1) 0 then Some (lo - 1)%nat else None)
                      else Some lo);
                if (8 - (hi + lo) <? 1)%nat then None
                else Some (hi, lo, (8 - (hi + lo))%nat)
            | _ => None
            end;
          his ← mapM _parse_hextet (firstn parts_hi parts);
          los ← mapM _parse_hextet (skipn (n - parts_lo) parts);
          Some (shift_in los
                  (Z.shiftl (shift_in his 0) (16 * Z.of_nat parts_skipped)))
  end.

(** [IPv6Address(address)] on a string: the integer and the scope id. *)
Definition IPv6Address (address : string) : option (Z * option string) :=
  if Py.contains_char "/" address then None
  else
    let '(addr, sep, scope_id) := Py.partition "%" address in
    if sep then
      match scope_id with
      | EmptyString => None
      | _ =>
          if Py.contains_char "%" scope_id then None
          else ip ← v6_int_from_string addr; Some (ip, Some scope_id)
      end
    else ip ← v6_int_from_string addr; Some (ip, None).

(** [ipaddress.ip_address(address)]; [None] is the [ValueError]. *)
Definition ip_address (address : string) : option IPAddress :=
  match IPv4Address address with
  | Some ip => Some (V4 ip)
  | None =>
      match IPv6Address address with
      | Some (ip, scope_id) => Some (V6 ip scope_id)
      | None => None
      end
  end.

Record network := {
  net_version : Z;
  network_address : Z;
  netmask : Z
}.

Definition ALL_ONES_V4 : Z := 2 ^ 32 - 1.

(** [_ip_int_from_prefix] *)
Definition _ip_int_from_prefix (prefixlen : Z) : Z :=
  Z.lxor ALL_ONES_V4 (Z.shiftr ALL_ONES_V4 prefixlen).

(** [ipaddress.ip_network(s)] for an IPv4 network written with a prefix
    length, the form of the constants in the tool; host bits must be
    clear (strict mode). *)
Definition ip_network (s : string) : option network :=
  let '(addr, sep, prefix) := Py.partition "/" s in
  ip ← v4_int_from_string addr;
  match prefix with
  | EmptyString => None
  | _ =>
      if negb sep || negb (Py.all_chars Py.isdigit_ascii prefix) then None
      else
        let prefixlen := Py.int_of 10 prefix in
        if 32 <? prefixlen then None
        else
          let mask := _ip_int_from_prefix prefixlen in
          if Z.land ip mask =? ip
          then Some {| net_version := 4; network_address := ip; netmask := mask |}
          else None
  end.

(** [address in network], i.e. [_BaseNetwork.__contains__]. *)
Definition contains (net : network) (a : IPAddress) : bool :=
  if negb (net_version net =? version a) then false
  else Z.land (ip_int a) (netmask net) =? network_address net.

End Ip.

(** ** [urllib.parse.urlparse] and the [hostname] property *)

Module Url.

Record ParseResult := {
  scheme : string;
  netloc : string
}.

Definition scheme_char (c : ascii) : bool :=
  Py.isalpha_ascii c || Py.isdigit_ascii c || Py.contains_char c "+-.".

Definition c0_control_or_space (c : ascii) : bool := Py.code c <=? 32.

Definition unsafe_byte (c : ascii) : bool :=
  (Py.code c =? 9) || (Py.code c =? 13) || (Py.code c =? 10).

Definition netloc_delim (c : ascii) : bool := Py.contains_char c "/?#".

(** [_splitnetloc(url, 2)[0]] *)
Definition _splitnetloc (url : string) : string :=
  Py.until netloc_delim (Py.drop 2 url).

(** The pattern [\Av[a-fA-F0-9]+\..+\Z] on what follows the [v]. *)
Definition ipvfuture_tail (s : string) : bool :=
  let stop c := negb (Py.ishex c) in
  match Py.until stop s with
  | EmptyString => false
  | _ =>
      match Py.from stop s with
      | String "." (String c r) =>
          Py.all_chars (fun x => negb (Py.code x =? 10)) (String c r)
      | _ => false
      end
  end.

(** [_check_bracketed_host]: [true] when no [ValueError] is raised. *)
Definition _check_bracketed_host (hostname : string) : bool :=
  match hostname with
  | String "v" tail => ipvfuture_tail tail
  | _ =>
      match Ip.ip_address hostname with
      | Some (Ip.V6 _ _) => true
      | _ => false
      end
  end.

(** [_check_bracketed_netloc]: [true] when no [ValueError] is raised. *)
Definition _check_bracketed_netloc (netloc : string) : bool :=
  let hostname_and_port := Py.rpartition_2 "@" netloc in
  let '(before_bracket, have_open_br, bracketed) :=
    Py.partition "[" hostname_and_port in
  if have_open_br then
    match before_bracket with
    | String _ _ => false
    | EmptyString =>
        let '(hostname, _, port) := Py.partition "]" bracketed in
        match port with
        | String c _ =>
            if negb (Ascii.eqb c ":") then false
            else _check_bracketed_host hostname
        | EmptyString => _check_bracketed_host hostname
        end
    end
  else
    let '(hostname, _, _) := Py.partition ":" hostname_and_port in
    _check_bracketed_host hostname.

(** The scheme and the rest, as [urlsplit] separates them. *)
Definition split_scheme (url : string) : string * string :=
  match Py.find_char ":" url, url with
  | Some i, String c0 _ =>
      if (0 <? i) && Py.isalpha_ascii c0
         && Py.all_chars scheme_char (Py.take (Z.to_N i) url)
      then (Py.lower (Py.take (Z.to_N i) url), Py.drop (Z.to_N (i + 1)) url)
      else (EmptyString, url)
  | _, _ => (EmptyString, url)
  end.

(** [urlparse(url)], keeping the two components the tool reads; [None]
    is the [ValueError] of a malformed bracketed host.  The NFKC check
    of [_checknetloc] never fires on Latin-1 text and is left out. *)
Definition urlparse (url : string) : option ParseResult :=
  let url := Py.lstrip_by c0_control_or_space url in
  let url := Py.filter_chars (fun c => negb (unsafe_byte c)) url in
  let '(scheme, url) := split_scheme url in
  if Py.startswith "//" url then
    let netloc := _splitnetloc url in
    let open_br := Py.contains_char "[" netloc in
    let close_br := Py.contains_char "]" netloc in
    if (open_br && negb close_br) || (close_br && negb open_br) then None
    else if open_br && close_br && negb (_check_bracketed_netloc netloc)
    then None
    else Some {| scheme := scheme; netloc := netloc |}
  else Some {| scheme := scheme; netloc := EmptyString |}.

(** [_hostinfo[0]] *)
Definition _hostinfo_0 (netloc : string) : string :=
  let hostinfo := Py.rpartition_2 "@" netloc in
  let '(_, have_open_br, bracketed) := Py.partition "[" hostinfo in
  if have_open_br then (Py.partition "]" bracketed).1.1
  else (Py.partition ":" hostinfo).1.1.

(** The [hostname] property; [None] is Python's [None]. *)
Definition hostname (parsed : ParseResult) : option string :=
  match _hostinfo_0 (netloc parsed) with
  | EmptyString => None
  | h =>
      let '(name, percent, zone) := Py.partition "%" h in
      Some (Py.lower name ++ (if percent then "%" else EmptyString) ++ zone)
  end.

End Url.

(** ** Constants of [web_tool.py] *)

Definition CACHE_TTL_SECONDS : Z := 300.
Definition MAX_CONTENT_LENGTH : Z := 5 * 1024 * 1024.
Definition DEFAULT_MAX_CHARS : Z := 50000.

Definition BLOCKED_HOSTS : gset string :=
  {[ "localhost"; "127.0.0.1"; "0.0.0.0"; "::1"; "[::1]" ]}.

Definition BLOCKED_IP_RANGES : list Ip.network :=
  omap Ip.ip_network
    [ "10.0.0.0/8"; "172.16.0.0/12"; "192.168.0.0/16";
      "127.0.0.0/8"; "169.254.0.0/16" ].

(** ** SSRF guard *)

Definition _is_ssrf_blocked (url : string) : bool :=
  match Url.urlparse url with
  | None => true
  | Some parsed =>
      let host := default EmptyString (Url.hostname parsed) in
      if bool_decide (Py.lower host ∈ BLOCKED_HOSTS) then true
      else
        match Ip.ip_address host with
        | Some ip => existsb (fun network => Ip.contains network ip) BLOCKED_IP_RANGES
        | None => false
        end
  end.

(** ** Fetch cache *)

Definition Qlt_bool (x y : Q) : bool := negb (Qle_bool y x).

(** [_get_cached(url)]; [now] is the reading of [time.time()] at line 72.
    The age [time.time() - timestamp] is a difference of floats; its
    comparison with the integer 300 is exact. *)
Definition _get_cached (now : Q) (url : string)
    (_fetch_cache : gmap string (string * Q))
    : option string * gmap string (string * Q) :=
  match _fetch_cache !! url with
  | Some (content, timestamp) =>
      if Qlt_bool (Float.sub now timestamp) (inject_Z CACHE_TTL_SECONDS)
      then (Some content, _fetch_cache)
      else (None, delete url _fetch_cache)
  | None => (None, _fetch_cache)
  end.

Definition _set_cache (now : Q) (url content : string)
    (_fetch_cache : gmap string (string * Q)) : gmap string (string * Q) :=
  <[url := (content, now)]> _fetch_cache.

(** ** What the tool gets from outside the repository *)

(** An exception as the handlers print it: [type(e).__name__], [str(e)]. *)
Record exn := { type_name : string; message : string }.

Inductive result (A : Type) :=
| Ok (a : A)
| Raise (e : exn).
Arguments Ok {A} a.
Arguments Raise {A} e.

(** The two questions the tool asks of [BeautifulSoup(html, "html.parser")]:
    [title_text] is [soup.find("title")] and, for a tag that is found, its
    [get_text(strip=True)]; [body_text] is
    [soup.get_text(separator="\n", strip=True)] once the non-content tags
    have been decomposed. *)
Record BeautifulSoup := {
  title_text : string -> result (option string);
  body_text : string -> result string
}.

(** The [Content-Length] header as line 182 sees it: absent or empty, a
    string [int] accepts, or a string on which [int] raises. *)
Inductive content_length :=
| NoLength
| Length (n : Z)
| BadLength (e : exn).

Record Response := {
  header_content_length : content_length;
  text : string;
  final_url : string
}.

(** What [requests.get] followed by [raise_for_status] and the read of
    the body comes to, by the handler that catches it. *)
Inductive get_result :=
| Got (response : Response)
| Timeout
| ConnectionError
| HTTPError (status_code : Z)
| OtherError (e : exn).

Record Env := {
  requests_installed : bool;
  requests_get : string -> get_result;
  bs4 : option BeautifulSoup
}.

(** ** Content extractor *)

(** A literal matched under [re.IGNORECASE]: what follows it in [s]. *)
Fixpoint strip_prefix_ci (pat s : string) : option string :=
  match pat, s with
  | EmptyString, _ => Some s
  | String p ps, String c r =>
      if Ascii.eqb (Py.lower_char p) (Py.lower_char c)
      then strip_prefix_ci ps r
      else None
  | String _ _, EmptyString => None
  end.

(** What follows the first occurrence of the literal. *)
Fixpoint find_after_ci (pat s : string) : option string :=
  match strip_prefix_ci pat s with
  | Some rest => Some rest
  | None =>
      match s with
      | EmptyString => None
      | String _ r => find_after_ci pat r
      end
  end.

Definition is_gt (c : ascii) : bool := Ascii.eqb c ">".
Definition is_lt (c : ascii) : bool := Ascii.eqb c "<".

(** [<title[^>]*>([^<]+)</title>] anchored at the head of [s]: group 1. *)
Definition title_match_at (s : string) : option string :=
  after_name ← strip_prefix_ci "<title" s;
  match Py.from is_gt after_name with
  | String _ inner =>
      match Py.until is_lt inner with
      | EmptyString => None
      | group =>
          match strip_prefix_ci "</title>" (Py.from is_lt inner) with
          | Some _ => Some group
          | None => None
          end
      end
  | EmptyString => None
  end.

(** [re.search] of that pattern: group 1 of the leftmost match. *)
Fixpoint title_search (html : string) : option string :=
  match title_match_at html with
  | Some group => Some group
  | None =>
      match html with
      | EmptyString => None
      | String _ rest => title_search rest
      end
  end.

Definition NO_TITLE : string := "(no title)".

Definition _get_title_fallback (html : string) : string :=
  match title_search html with
  | Some group => Py.strip group
  | None => NO_TITLE
  end.

Definition _get_title (env : Env) (html : string) : string :=
  match bs4 env with
  | Some soup =>
      match title_text soup html with
      | Ok (Some title) => title
      | Ok None => NO_TITLE
      | Raise _ => _get_title_fallback html
      end
  | None => _get_title_fallback html
  end.

(** [re.sub] for a pattern that never matches the empty string:
    [match_at s] is what follows the match anchored at the head of [s]. *)
Fixpoint re_sub (match_at : string -> option string) (repl : string)
    (skip : nat) (s : string) : string :=
  match s with
  | EmptyString => EmptyString
  | String c r =>
      match skip with
      | S k => re_sub match_at repl k r
      | O =>
          match match_at s with
          | Some rest =>
              repl ++ re_sub match_at repl
                        (String.length r - String.length rest)%nat r
          | None => String c (re_sub match_at repl O r)
          end
      end
  end.

(** [<name[^>]*>.*?</name>] with [re.DOTALL | re.IGNORECASE]. *)
Definition block_match_at (name : string) (s : string) : option string :=
  after_name ← strip_prefix_ci ("<" ++ name) s;
  match Py.from is_gt after_name with
  | String _ inner => find_after_ci ("</" ++ name ++ ">") inner
  | EmptyString => None
  end.

(** [<[^>]+>] *)
Definition tag_match_at (s : string) : option string :=
  match s with
  | String "<" r =>
      match Py.until is_gt r, Py.from is_gt r with
      | String _ _, String _ rest => Some rest
      | _, _ => None
      end
  | _ => None
  end.

(** [\s+] *)
Definition space_match_at (s : string) : option string :=
  match Py.until (fun c => negb (Py.isspace c)) s with
  | EmptyString => None
  | _ => Some (Py.from (fun c => negb (Py.isspace c)) s)
  end.

(** [re.sub(r"\n{3,}", "\n\n", text)]; [run] counts the line feeds of the
    run being read. *)
Fixpoint collapse_newlines (run : nat) (s : string) : string :=
  let pending :=
    if (3 <=? run)%nat then Py.LF ++ Py.LF
    else Py.join EmptyString (replicate run Py.LF) in
  match s with
  | EmptyString => pending
  | String c r =>
      if Ascii.eqb c (ascii_of_N 10) then collapse_newlines (S run) r
      else pending ++ String c (collapse_newlines O r)
  end.

Definition nonempty (s : string) : bool :=
  match s with EmptyString => false | _ => true end.

Definition _extract_text (env : Env) (html : string) : result string :=
  match bs4 env with
  | Some soup =>
      match body_text soup html with
      | Ok text =>
          let lines :=
            List.map Py.strip
              (List.filter (fun line => nonempty (Py.strip line))
                 (Py.split (ascii_of_N 10) text)) in
          Ok (collapse_newlines O (Py.join Py.LF lines))
      | Raise e => Raise e
      end
  | None =>
      let text := re_sub (block_match_at "script") EmptyString O html in
      let text := re_sub (block_match_at "style") EmptyString O text in
      let text := re_sub tag_match_at " " O text in
      let text := re_sub space_match_at " " O text in
      Ok (Py.strip text)
  end.

(** ** Fetch orchestrator *)

(** What one call of a tool does: the string it returns, the cache it
    leaves, and the URLs it handed to [requests.get]. *)
Record outcome := {
  returned : string;
  cache_after : gmap string (string * Q);
  requested : list string
}.

(** Lines 152-153. *)
Definition normalize_url (url : string) : string :=
  if negb (Py.startswith "http://" url || Py.startswith "https://" url)
  then "https://" ++ url
  else url.

Definition blocked_message (url : string) : string :=
  "Error: URL blocked for security reasons (internal/private address): " ++ url.

Definition truncation_marker (max_chars : Z) : string :=
  Py.LF ++ Py.LF ++ "... (truncated at " ++ Py.str_of_int max_chars ++ " characters)".

Definition other_message (e : exn) : string :=
  "Error fetching webpage: " ++ type_name e ++ ": " ++ message e.

(** Lines 193-194. *)
Definition truncate (text : string) (max_chars : Z) : string :=
  if max_chars <? Py.len text
  then Py.slice_to text max_chars ++ truncation_marker max_chars
  else text.

Definition format_result (title url text : string) : string :=
  "Title: " ++ title ++ Py.LF ++ "URL: " ++ url ++ Py.LF ++ Py.LF ++ text.

(** [fetch_webpage(url, max_chars)]; [t_lookup] and [t_store] are the
    readings of the clock in [_get_cached] and in [_set_cache]. *)
Definition fetch_webpage (env : Env) (t_lookup t_store : Q)
    (url : string) (max_chars : Z)
    (_fetch_cache : gmap string (string * Q)) : outcome :=
  if negb (requests_installed env) then
    {| returned := "Error: 'requests' library not installed. Run: pip install requests beautifulsoup4";
       cache_after := _fetch_cache; requested := [] |}
  else
    let url := normalize_url url in
    if _is_ssrf_blocked url then
      {| returned := blocked_message url;
         cache_after := _fetch_cache; requested := [] |}
    else
      let '(cached, _fetch_cache) := _get_cached t_lookup url _fetch_cache in
      match cached with
      | Some (String c0 rest) =>
          {| returned := "(cached)" ++ Py.LF ++ Py.LF ++ String c0 rest;
             cache_after := _fetch_cache; requested := [] |}
      | _ =>
          let fail msg :=
            {| returned := msg; cache_after := _fetch_cache;
               requested := [url] |} in
          match requests_get env url with
          | Timeout => fail ("Error: Request timed out for: " ++ url)
          | ConnectionError => fail ("Error: Could not connect to: " ++ url)
          | HTTPError status_code =>
              fail ("Error: HTTP " ++ Py.str_of_int status_code ++ " for: " ++ url)
          | OtherError e => fail (other_message e)
          | Got response =>
              let read_page :=
                let html :=
                  Py.take (Z.to_N MAX_CONTENT_LENGTH) (text response) in
                let title := _get_title env html in
                match _extract_text env html with
                | Raise e => fail (other_message e)
                | Ok text =>
                    let text := truncate text max_chars in
                    let result := format_result title (final_url response) text in
                    {| returned := result;
                       cache_after := _set_cache t_store url result _fetch_cache;
                       requested := [url] |}
                end in
              match header_content_length response with
              | NoLength => read_page
              | BadLength e => fail (other_message e)
              | Length n =>
                  if MAX_CONTENT_LENGTH <? n then
                    fail ("Error: Page too large ("
                            ++ Py.str_of_int (n / 1024 / 1024)
                            ++ "MB). Maximum: 5MB")
                  else read_page
              end
          end
      end.

(** [clear_web_cache()] *)
Definition clear_web_cache (_fetch_cache : gmap string (string * Q)) : outcome :=
  let count := Z.of_nat (size _fetch_cache) in
  {| returned := "Cleared " ++ Py.str_of_int count ++ " cached entries";
     cache_after := ∅; requested := [] |}.

(** ** Web search *)

Definition MAX_SEARCH_RESULTS : Z := 10.

(** The [duckduckgo_search] package as the tool uses it: what
    [list(DDGS().text(query, max_results=n))] comes to, a list of
    dictionaries from strings to strings or an exception that the last
    handler of [web_search] catches. *)
Definition DDGS : Type := string -> Z -> result (list (gmap string string)).

(** [d.get(key, default)] *)
Definition dict_get (d : gmap string string) (key fallback : string) : string :=
  match d !! key with
  | Some value => value
  | None => fallback
  end.

(** The four lines that the loop of lines 251-259 appends for the
    result numbered [i]. *)
Definition output_entry (i : Z) (result : gmap string string) : list string :=
  let title := dict_get result "title" "(no title)" in
  let url := dict_get result "href" (dict_get result "link" "(no url)") in
  let snippet :=
    dict_get result "body" (dict_get result "snippet" "(no description)") in
  [ Py.str_of_int i ++ ". " ++ title;
    "   URL: " ++ url;
    "   " ++ snippet;
    EmptyString ].

(** [for i, result in enumerate(results, i): ...] *)
Fixpoint output_entries (i : Z) (results : list (gmap string string))
    : list string :=
  match results with
  | [] => []
  | result :: rest => app (output_entry i result) (output_entries (i + 1) rest)
  end.

(** What one call of [web_search] does: the string it returns and the
    calls [(query, max_results)] it made to the search library. *)
Record search_outcome := {
  search_returned : string;
  searched : list (string * Z)
}.

(** [web_search(query, num_results)]; [ddgs] is [None] when the package
    cannot be imported. *)
Definition web_search (ddgs : option DDGS) (query : string) (num_results : Z)
    : search_outcome :=
  match ddgs with
  | None =>
      {| search_returned := "Error: 'duckduckgo-search' library not installed. Run: pip install duckduckgo-search";
         searched := [] |}
  | Some text =>
      let num_results := Z.max 1 (Z.min num_results MAX_SEARCH_RESULTS) in
      let answer msg :=
        {| search_returned := msg; searched := [(query, num_results)] |} in
      match text query num_results with
      | Raise e =>
          answer ("Error searching: " ++ type_name e ++ ": " ++ message e)
      | Ok [] => answer ("No results found for: " ++ query)
      | Ok results =>
          let output :=
            ("Search results for: " ++ query ++ Py.LF)
              :: output_entries 1 results in
          answer (Py.join Py.LF output)
      end
  end.

(** ** Notions the specification uses *)

(** The hostname [urlparse] reports for a URL, when it parses. *)
Definition url_hostname (url : string) : option string :=
  parsed ← Url.urlparse url; Url.hostname parsed.

(** The scheme [urlparse] reports for a URL, when it parses. *)
Definition url_scheme (url : string) : option string :=
  Url.scheme <$> Url.urlparse url.

(** The address written [a.b.c.d]. *)
Definition dotted (a b c d : Z) : Z := ((a * 256 + b) * 256 + c) * 256 + d.

(** Membership in the IPv4 block [base/prefixlen], arithmetically. *)
Definition in_cidr (ip base prefixlen : Z) : Prop :=
  base <= ip < base + 2 ^ (32 - prefixlen).

(** The five blocks of section 8 of the specification. *)
Definition spec_private_v4 (ip : Z) : Prop :=
  in_cidr ip (dotted 10 0 0 0) 8
  \/ in_cidr ip (dotted 172 16 0 0) 12
  \/ in_cidr ip (dotted 192 168 0 0) 16
  \/ in_cidr ip (dotted 127 0 0 0) 8
  \/ in_cidr ip (dotted 169 254 0 0) 16.

(** The five names, compared without regard to case. *)
Definition spec_blocked_name (host : string) : Prop :=
  Py.lower host = "localhost" \/ Py.lower host = "127.0.0.1"
  \/ Py.lower host = "0.0.0.0" \/ Py.lower host = "::1"
  \/ Py.lower host = "[::1]".

(** A host the specification calls public: none of the five names and,
    when it is an IPv4 literal, outside the five blocks. *)
Definition spec_public_host (host : string) : Prop :=
  ~ spec_blocked_name host
  /\ forall ip, Ip.ip_address host = Some (Ip.V4 ip) -> ~ spec_private_v4 ip.


(** A URL carries a scheme when [urlparse] finds a non-empty one. *)
Definition spec_has_scheme (url : string) : Prop :=
  exists s, url_scheme url = Some s /\ s <> EmptyString.

(** An entry stored at [timestamp] is within its TTL at [now], as line 72
    tests it: the difference of the two readings, computed on floats, is
    below 300. *)
Definition fresh (now timestamp : Q) : Prop :=
  (Float.sub now timestamp < inject_Z CACHE_TTL_SECONDS)%Q.

(** The largest advance of the clock, in exact terms, that line 72 still
    rounds to an age below 300: [300 - 2^-45] seconds. *)
Definition EFFECTIVE_TTL : Q := (300 - (1 # 35184372088832))%Q.

(** The lookup of line 160 yields nothing line 161 accepts: no entry, an
    expired entry, or an entry whose content is the empty string. *)
Definition cache_miss (t_lookup : Q) (url : string)
    (_fetch_cache : gmap string (string * Q)) : Prop :=
  match (_get_cached t_lookup url _fetch_cache).1 with
  | Some (String _ _) => False
  | _ => True
  end.

(** The response passes the size check of lines 181-183. *)
Definition size_accepted (response : Response) : Prop :=
  match header_content_length response with
  | NoLength => True
  | Length n => n <= MAX_CONTENT_LENGTH
  | BadLength _ => False
  end.

(** The call of [fetch_webpage] gets as far as line 192 with [title] and
    [body] extracted from the page [response]. *)
Definition extracts (env : Env) (t_lookup : Q) (url : string)
    (_fetch_cache : gmap string (string * Q))
    (response : Response) (title body : string) : Prop :=
  requests_installed env = true
  /\ _is_ssrf_blocked (normalize_url url) = false
  /\ cache_miss t_lookup (normalize_url url) _fetch_cache
  /\ requests_get env (normalize_url url) = Got response
  /\ size_accepted response
  /\ (let html := Py.take (Z.to_N MAX_CONTENT_LENGTH) (text response) in
      _get_title env html = title /\ _extract_text env html = Ok body).



(** [_get_title] takes the regular-expression path: [bs4] cannot be
    imported, or it raises on this markup. *)
Definition uses_fallback (env : Env) (markup : string) : Prop :=
  bs4 env = None
  \/ exists soup e, bs4 env = Some soup /\ title_text soup markup = Raise e.

(** A character that can stand in a host name or a port: no delimiter of
    the URL syntax, no space, no control character. *)
Definition plain_char (c : ascii) : bool :=
  (32 <? Py.code c) && negb (Py.contains_char c "/?#@:[]%").

(** What may follow the authority of a URL: nothing, or a path, a query
    or a fragment. *)
Definition url_tail (tail : string) : Prop :=
  match tail with
  | EmptyString => True
  | String c _ => Url.netloc_delim c = true
  end.

(** The white space of [s] is single spaces only, none of them directly
    after another; [after_space] tells whether a space has just been
    read, so that [single_spaced true s] also rules out a leading space. *)
Fixpoint single_spaced (after_space : bool) (s : string) : bool :=
  match s with
  | EmptyString => true
  | String c r =>
      if Py.isspace c
      then Ascii.eqb c " " && negb after_space && single_spaced true r
      else single_spaced false r
  end.

(** [re.search(r"<[^>]+>", s) is not None]: a tag is left in [s]. *)
Fixpoint has_tag (s : string) : bool :=
  match tag_match_at s with
  | Some _ => true
  | None =>
      match s with
      | EmptyString => false
      | String _ r => has_tag r
      end
  end.

(** Every content of the cache is a page as [fetch_webpage] formats
    one: it starts with the title line. *)
Definition pages_only (_fetch_cache : gmap string (string * Q)) : Prop :=
  map_Forall (fun _ entry => Py.startswith "Title: " (fst entry) = true)
    _fetch_cache.

(** ** Sample environments *)

(** [requests] is installed and every request comes to [r]. *)
Definition env_with (r : get_result) (soup : option BeautifulSoup) : Env :=
  {| requests_installed := true; requests_get := fun _ => r; bs4 := soup |}.

(** Neither [requests] nor [bs4] can be imported. *)
Definition env_bare : Env :=
  {| requests_installed := false; requests_get := fun _ => ConnectionError;
     bs4 := None |}.

Definition page (html : string) (url : string) (size : content_length) : get_result :=
  Got {| header_content_length := size; text := html; final_url := url |}.

(** * Properties *)

(** ** The SSRF guard *)

Lemma blocked_hosts_spec host :
  Py.lower host ∈ BLOCKED_HOSTS <-> spec_blocked_name host.
Proof.
  unfold BLOCKED_HOSTS, spec_blocked_name.
  rewrite !elem_of_union, !elem_of_singleton. tauto.
Qed.

Lemma high_mask_land ip k :
  0 <= k <= 32 -> 0 <= ip < 2 ^ 32 ->
  Z.land ip (Z.lxor (Z.ones 32) (Z.ones k)) = ip / 2 ^ k * 2 ^ k.
Proof.
  intros Hk Hip.
  rewrite <- Z.shiftr_div_pow2, <- Z.shiftl_mul_pow2 by lia.
  apply Z.bits_inj'. intros i Hi.
  rewrite Z.land_spec, Z.lxor_spec.
  destruct (Z.lt_ge_cases i k) as [Hlt | Hge].
  - rewrite Z.shiftl_spec_low by lia.
    rewrite !Z.ones_spec_low by lia. simpl. apply andb_false_r.
  - rewrite Z.shiftl_spec by lia. rewrite Z.shiftr_spec by lia.
    replace (i - k + k) with i by lia.
    rewrite (Z.ones_spec_high k) by lia.
    destruct (Z.lt_ge_cases i 32) as [H32 | H32].
    + rewrite Z.ones_spec_low by lia. simpl. apply andb_true_r.
    + rewrite Z.ones_spec_high by lia. simpl. rewrite andb_false_r.
      symmetry. destruct (Z.eq_dec ip 0) as [-> | Hne].
      * apply Z.bits_0.
      * apply Z.bits_above_log2; [lia |].
        apply Z.lt_le_trans with 32; [| lia].
        apply Z.log2_lt_pow2; lia.
Qed.
Lemma ranges_eq : BLOCKED_IP_RANGES =
  [ {| Ip.net_version := 4; Ip.network_address := dotted 10 0 0 0; Ip.netmask := Z.lxor (Z.ones 32) (Z.ones 24) |};
    {| Ip.net_version := 4; Ip.network_address := dotted 172 16 0 0; Ip.netmask := Z.lxor (Z.ones 32) (Z.ones 20) |};
    {| Ip.net_version := 4; Ip.network_address := dotted 192 168 0 0; Ip.netmask := Z.lxor (Z.ones 32) (Z.ones 16) |};
    {| Ip.net_version := 4; Ip.network_address := dotted 127 0 0 0; Ip.netmask := Z.lxor (Z.ones 32) (Z.ones 24) |};
    {| Ip.net_version := 4; Ip.network_address := dotted 169 254 0 0; Ip.netmask := Z.lxor (Z.ones 32) (Z.ones 16) |} ].
Proof. reflexivity. Qed.

Lemma int_digits_nonneg s acc :
  Py.all_chars Py.isdigit_ascii s = true -> 0 <= acc ->
  0 <= Py.int_digits 10 acc s.
Proof.
  revert acc. induction s as [| c r IH]; intros acc Hall Hacc; simpl in *.
  - exact Hacc.
  - apply andb_prop in Hall as [Hc Hr].
    apply IH; [exact Hr |].
    unfold Py.isdigit_ascii in Hc. unfold Py.digit_value. rewrite Hc.
    unfold Py.between in Hc. lia.
Qed.

Lemma parse_octet_range s n :
  Ip._parse_octet s = Some n -> 0 <= n <= 255.
Proof.
  unfold Ip._parse_octet. intros H.
  destruct s as [| c0 r]; [discriminate |].
  destruct (Py.all_chars Py.isdigit_ascii (String c0 r)) eqn:Hall;
    [| discriminate].
  repeat case_match; try discriminate.
  injection H as <-. split; [| lia].
  apply int_digits_nonneg; [exact Hall | lia].
Qed.

Lemma IPv4Address_range s ip :
  Ip.IPv4Address s = Some ip -> 0 <= ip < 2 ^ 32.
Proof.
  unfold Ip.IPv4Address, Ip.v4_int_from_string. intros H.
  destruct (Py.contains_char "/" s); [discriminate |].
  destruct s as [| c r]; [simpl in H; discriminate |].
  destruct (Nat.eqb (length (Py.split "." (String c r))) 4) eqn:Hlen;
    cbv beta iota delta [negb] in H; [| discriminate].
  apply Nat.eqb_eq in Hlen.
  destruct (mapM Ip._parse_octet (Py.split "." (String c r))) as [bs |] eqn:Hm;
    [| discriminate].
  injection H as <-.
  apply mapM_Some_1 in Hm.
  pose proof (Forall2_length _ _ _ Hm) as Hl. rewrite Hlen in Hl.
  assert (Hall : Forall (fun x => 0 <= x <= 255) bs).
  { clear Hl Hlen. induction Hm; constructor; eauto using parse_octet_range. }
  destruct bs as [| a [| b [| c' [| d [| ? ?]]]]]; try discriminate.
  rewrite !Forall_cons in Hall. unfold Ip.from_bytes. simpl. lia.
Qed.

Lemma contains_block ip base k :
  0 <= k <= 32 -> 0 <= ip < 2 ^ 32 -> base mod 2 ^ k = 0 ->
  Ip.contains
    {| Ip.net_version := 4; Ip.network_address := base;
       Ip.netmask := Z.lxor (Z.ones 32) (Z.ones k) |} (Ip.V4 ip) = true
  <-> in_cidr ip base (32 - k).
Proof.
  intros Hk Hip Hbase. unfold Ip.contains, in_cidr. simpl.
  rewrite Z.eqb_eq, high_mask_land by lia.
  replace (32 - (32 - k)) with k by lia.
  assert (0 < 2 ^ k) by (apply Z.pow_pos_nonneg; lia).
  pose proof (Z.div_mod ip (2 ^ k)). pose proof (Z.mod_pos_bound ip (2 ^ k)).
  pose proof (Z.div_mod base (2 ^ k)).
  split; [lia |]. intros Hr.
  assert (Hq : base / 2 ^ k = ip / 2 ^ k); [| rewrite <- Hq; lia].
  apply Z.div_unique with (ip - base); lia.
Qed.

Lemma blocked_ranges_v4 ip :
  0 <= ip < 2 ^ 32 ->
  existsb (fun network => Ip.contains network (Ip.V4 ip)) BLOCKED_IP_RANGES = true
  <-> spec_private_v4 ip.
Proof.
  intros Hip. rewrite ranges_eq. unfold spec_private_v4. simpl existsb.
  rewrite !orb_true_iff.
  rewrite !contains_block by (first [lia | reflexivity]).
  change (32 - 24) with 8. change (32 - 20) with 12. change (32 - 16) with 16.
  intuition discriminate.
Qed.

Lemma blocked_ranges_v6 ip scope_id :
  existsb (fun network => Ip.contains network (Ip.V6 ip scope_id))
    BLOCKED_IP_RANGES = false.
Proof. reflexivity. Qed.

Lemma guard_verdict url host :
  url_hostname url = Some host ->
  _is_ssrf_blocked url = true
  <-> spec_blocked_name host
      \/ exists ip, Ip.ip_address host = Some (Ip.V4 ip) /\ spec_private_v4 ip.
Proof.
  unfold url_hostname, _is_ssrf_blocked. intros Hh.
  destruct (Url.urlparse url) as [parsed |]; [| discriminate].
  simpl in Hh. rewrite Hh. simpl default.
  case_bool_decide as Hname; rewrite blocked_hosts_spec in Hname.
  { split; auto. }
  destruct (Ip.ip_address host) as [[ip | ip scope_id] |] eqn:Hip.
  - assert (Hr : 0 <= ip < 2 ^ 32).
    { unfold Ip.ip_address in Hip.
      destruct (Ip.IPv4Address host) as [n |] eqn:H4.
      - injection Hip as ->. eauto using IPv4Address_range.
      - destruct (Ip.IPv6Address host) as [[? ?] |]; discriminate. }
    rewrite blocked_ranges_v4 by exact Hr. split.
    + eauto.
    + intros [? | (ip' & [= <-] & ?)]; tauto.
  - rewrite blocked_ranges_v6. split; [discriminate |].
    intros [? | (ip' & [=] & ?)]. tauto.
  - split; [discriminate |]. intros [? | (ip' & [=] & ?)]. tauto.
Qed.

(** C1: a URL whose hostname is one of the five blocked names (compared
    without regard to case) or an IPv4 literal inside one of the five
    private, loopback or link-local blocks is blocked by
    [_is_ssrf_blocked]; a URL whose hostname is public is not. *)
Theorem ssrf_guard_classification url host :
  url_hostname url = Some host ->
  ((spec_blocked_name host
    \/ exists ip, Ip.ip_address host = Some (Ip.V4 ip) /\ spec_private_v4 ip) ->
   _is_ssrf_blocked url = true)
  /\ (spec_public_host host -> _is_ssrf_blocked url = false).
Proof.
  intros Hh. pose proof (guard_verdict url host Hh) as Hv. split.
  - apply Hv.
  - intros [Hname Hpub].
    destruct (_is_ssrf_blocked url); [| reflexivity].
    destruct Hv as [Hv _].
    destruct (Hv eq_refl) as [? | (ip & Hip & Hpriv)]; [tauto |].
    destruct (Hpub ip Hip Hpriv).
Qed.

Lemma ssrf_guard_classification_witness :
  _is_ssrf_blocked "http://LOCALHOST:8080/admin" = true
  /\ _is_ssrf_blocked "http://172.20.1.9/x" = true
  /\ _is_ssrf_blocked "https://example.com/" = false
  /\ _is_ssrf_blocked "https://8.8.8.8/" = false.
Proof.
  split; [| split; [| split]].
  - apply (ssrf_guard_classification "http://LOCALHOST:8080/admin" "localhost");
      [vm_compute; reflexivity |].
    left. left. vm_compute. reflexivity.
  - apply (ssrf_guard_classification "http://172.20.1.9/x" "172.20.1.9");
      [vm_compute; reflexivity |].
    right. exists (dotted 172 20 1 9). split; [vm_compute; reflexivity |].
    right. left. unfold in_cidr, dotted. simpl. lia.
  - apply (ssrf_guard_classification "https://example.com/" "example.com");
      [vm_compute; reflexivity |].
    split.
    + unfold spec_blocked_name. vm_compute. intuition discriminate.
    + intros ip Hip. vm_compute in Hip. discriminate.
  - apply (ssrf_guard_classification "https://8.8.8.8/" "8.8.8.8");
      [vm_compute; reflexivity |].
    split.
    + unfold spec_blocked_name. vm_compute. intuition discriminate.
    + intros ip Hip. vm_compute in Hip. injection Hip as <-.
      unfold spec_private_v4, in_cidr, dotted. simpl. lia.
Defined.

(** ** The fetch cache *)

Lemma Qlt_bool_iff (x y : Q) : Qlt_bool x y = true <-> (x < y)%Q.
Proof.
  unfold Qlt_bool. rewrite negb_true_iff, <- not_true_iff_false, Qle_bool_iff.
  split; [apply Qnot_le_lt | apply Qlt_not_le].
Qed.

Lemma Qlt_bool_false_iff (x y : Q) : Qlt_bool x y = false <-> (y <= x)%Q.
Proof. unfold Qlt_bool. rewrite negb_false_iff. apply Qle_bool_iff. Qed.

(** *** Rounding to binary64 *)

Section Rounding.
Local Open Scope Q_scope.

Lemma rhe_bounds x :
  (Qfloor x <= Float.round_half_even x <= Qfloor x + 1)%Z.
Proof.
  unfold Float.round_half_even.
  destruct (x - inject_Z (Qfloor x) ?= 1 # 2); [| lia | lia].
  destruct (Z.even (Qfloor x)); lia.
Qed.

Lemma rhe_ge x M : inject_Z M <= x -> (M <= Float.round_half_even x)%Z.
Proof.
  intros H. apply Qfloor_resp_le in H. rewrite Qfloor_Z in H.
  pose proof (rhe_bounds x). lia.
Qed.

Lemma floor_lt x M : x < inject_Z M -> (Qfloor x < M)%Z.
Proof.
  intros H. rewrite Zlt_Qlt.
  apply Qle_lt_trans with x; [apply Qfloor_le | exact H].
Qed.

Lemma floor_ge x M : inject_Z M <= x -> (M <= Qfloor x)%Z.
Proof.
  intros H. apply Qfloor_resp_le in H. rewrite Qfloor_Z in H. exact H.
Qed.

Lemma inject_Z_minus_1 M : inject_Z (M - 1) == inject_Z M - 1.
Proof. unfold Z.sub. rewrite inject_Z_plus. reflexivity. Qed.

Lemma rhe_below x M :
  x < inject_Z M - (1 # 2) -> (Float.round_half_even x <= M - 1)%Z.
Proof.
  intros H.
  assert (Hf : (Qfloor x < M)%Z) by (apply floor_lt; lra).
  destruct (Z.eq_dec (Qfloor x) (M - 1)%Z) as [Heq | Hne].
  - unfold Float.round_half_even. rewrite Heq.
    assert (Hlt : x - inject_Z (M - 1) < 1 # 2)
      by (rewrite inject_Z_minus_1; lra).
    destruct (Qcompare_spec (x - inject_Z (M - 1)) (1 # 2)) as [Hc | Hc | Hc];
      [rewrite Hc in Hlt; discriminate Hlt | lia | lra].
  - pose proof (rhe_bounds x). lia.
Qed.

Lemma rhe_tie_up x M :
  inject_Z M - (1 # 2) <= x -> Z.even M = true ->
  (M <= Float.round_half_even x)%Z.
Proof.
  intros H Hev.
  destruct (Qlt_le_dec x (inject_Z M)) as [Hlt | Hge];
    [| apply rhe_ge, Hge].
  assert (Hf : Qfloor x = (M - 1)%Z).
  { apply floor_lt in Hlt.
    assert ((M - 1 <= Qfloor x)%Z)
      by (apply floor_ge; rewrite inject_Z_minus_1; lra).
    lia. }
  unfold Float.round_half_even. rewrite Hf.
  destruct (Qcompare_spec (x - inject_Z (M - 1)) (1 # 2)) as [Hc | Hc | Hc].
  - replace (Z.even (M - 1)) with false; [lia |].
    rewrite Z.even_sub, Hev. reflexivity.
  - rewrite inject_Z_minus_1 in Hc. lra.
  - lia.
Qed.

Lemma rhe_le_succ x : inject_Z (Float.round_half_even x) <= x + 1.
Proof.
  pose proof (rhe_bounds x) as [_ H]. rewrite Zle_Qle in H.
  rewrite inject_Z_plus in H. pose proof (Qfloor_le x).
  change (inject_Z 1) with 1 in H. lra.
Qed.

Lemma rhe_nonneg x : 0 <= x -> (0 <= Float.round_half_even x)%Z.
Proof. intros H. apply rhe_ge. exact H. Qed.

Lemma pow2_pos e : 0 < 2 ^ e.
Proof. apply Qpower_0_lt. reflexivity. Qed.

Lemma pow2_le_1 e : (e <= 0)%Z -> 2 ^ e <= 1.
Proof.
  intros H. change 1 with (2 ^ 0).
  apply Qpower_le_compat_l; [exact H | discriminate].
Qed.

(** The rounded value is on the grid of step [2 ^ e] around [a]. *)
Lemma round_pos_ge a M :
  let e := Z.max (Float.ilog2 a - 52) (-1074) in
  inject_Z M * 2 ^ e <= a -> inject_Z M * 2 ^ e <= Float.round_pos a.
Proof.
  intros e H. unfold Float.round_pos. fold e.
  pose proof (pow2_pos e) as Hs.
  apply Qmult_le_compat_r; [| apply Qlt_le_weak, Hs].
  rewrite <- Zle_Qle. apply rhe_ge.
  apply Qle_shift_div_l; assumption.
Qed.

Lemma round_pos_le_succ a :
  (Z.max (Float.ilog2 a - 52) (-1074) <= 0)%Z ->
  Float.round_pos a <= a + 1.
Proof.
  intros He. unfold Float.round_pos.
  set (e := Z.max (Float.ilog2 a - 52) (-1074)) in *.
  pose proof (pow2_pos e) as Hs. pose proof (pow2_le_1 e He) as Hs1.
  pose proof (rhe_le_succ (a / 2 ^ e)) as Hm.
  apply Qle_trans with ((a / 2 ^ e + 1) * 2 ^ e).
  - apply Qmult_le_compat_r; [exact Hm | apply Qlt_le_weak, Hs].
  - assert (Hdiv : a / 2 ^ e * 2 ^ e == a).
    { unfold Qdiv. rewrite <- Qmult_assoc, (Qmult_comm (/ _)), Qmult_inv_r;
        [apply Qmult_1_r |].
      intros H0. rewrite H0 in Hs. discriminate. }
    rewrite Qmult_plus_distr_l, Hdiv. lra.
Qed.

Lemma round_pos_nonneg a : 0 <= a -> 0 <= Float.round_pos a.
Proof.
  intros Ha. unfold Float.round_pos.
  set (e := Z.max (Float.ilog2 a - 52) (-1074)).
  pose proof (pow2_pos e) as Hs.
  apply Qmult_le_0_compat; [| apply Qlt_le_weak, Hs].
  change 0 with (inject_Z 0). rewrite <- Zle_Qle. apply rhe_nonneg.
  apply Qle_shift_div_l; [exact Hs | lra].
Qed.

Lemma ilog2_ge_1 q : 1 <= q -> Float.ilog2 q = Z.log2 (Qfloor q).
Proof.
  intros H. unfold Float.ilog2. apply Qle_bool_iff in H. rewrite H.
  reflexivity.
Qed.

Lemma ilog2_lt_1 q : q < 1 -> (Float.ilog2 q <= 0)%Z.
Proof.
  intros H. unfold Float.ilog2.
  destruct (Qle_bool 1 q) eqn:Hb.
  - apply Qle_bool_iff in Hb. lra.
  - pose proof (Z.log2_up_nonneg (Qceiling (/ q))). lia.
Qed.

Lemma round_pos_ge_300 q : 300 <= q -> 300 <= Float.round_pos q.
Proof.
  intros Hq.
  assert (H1 : 1 <= q) by lra.
  pose proof (floor_ge q 300 Hq) as Hfloor.
  assert (Hlog : (8 <= Z.log2 (Qfloor q))%Z).
  { change 8%Z with (Z.log2 300). apply Z.log2_le_mono, Hfloor. }
  pose proof (ilog2_ge_1 q H1) as He'.
  set (e' := Z.log2 (Qfloor q)) in *.
  assert (He : Z.max (Float.ilog2 q - 52) (-1074) = (e' - 52)%Z) by lia.
  destruct (Z_le_gt_dec e' 54) as [Hsmall | Hbig].
  - (* 300 is on the grid *)
    assert (Hgrid : inject_Z (75 * 2 ^ (54 - e')) * 2 ^ (e' - 52) == 300).
    { rewrite inject_Z_mult, Zpower_Qpower by lia.
      rewrite <- Qmult_assoc, <- Qpower_plus by discriminate.
      replace (54 - e' + (e' - 52))%Z with 2%Z by lia. reflexivity. }
    pose proof (round_pos_ge q (75 * 2 ^ (54 - e'))) as H.
    cbv zeta in H. rewrite He, Hgrid in H. apply H, Hq.
  - (* the step is larger than 4: the result is at least a power of two *)
    assert (Hgrid : inject_Z (2 ^ 52) * 2 ^ (e' - 52) == inject_Z (2 ^ e')).
    { rewrite !Zpower_Qpower by lia.
      rewrite <- Qpower_plus by discriminate.
      replace (52 + (e' - 52))%Z with e' by lia. reflexivity. }
    pose proof (round_pos_ge q (2 ^ 52)) as H.
    cbv zeta in H. rewrite He, Hgrid in H.
    assert (Hpow : (2 ^ e' <= Qfloor q)%Z).
    { apply Z.log2_spec. lia. }
    assert (Hle : inject_Z (2 ^ e') <= q).
    { apply Qle_trans with (inject_Z (Qfloor q));
        [rewrite <- Zle_Qle; exact Hpow | apply Qfloor_le]. }
    apply Qle_trans with (inject_Z (2 ^ e')); [| apply H, Hle].
    change 300 with (inject_Z 300). rewrite <- Zle_Qle.
    apply Z.le_trans with (2 ^ 55)%Z; [discriminate |].
    apply Z.pow_le_mono_r; lia.
Qed.

Lemma round_pos_binade_8 q :
  256 <= q -> q < 300 ->
  Float.round_pos q
  = inject_Z (Float.round_half_even (q / (1 # 17592186044416)))
    * (1 # 17592186044416).
Proof.
  intros Hlo Hhi.
  assert (H1 : 1 <= q) by lra.
  pose proof (floor_ge q 256 Hlo) as Hf1.
  pose proof (floor_lt q 300 Hhi) as Hf2.
  assert (Hlog : Z.log2 (Qfloor q) = 8%Z).
  { apply Z.log2_unique; [lia |]. split; [exact Hf1 |].
    change (2 ^ Z.succ 8)%Z with 512%Z. lia. }
  unfold Float.round_pos. rewrite (ilog2_ge_1 q H1), Hlog. reflexivity.
Qed.

Lemma round_pos_tie_300 q :
  300 - (1 # 35184372088832) <= q -> q < 300 -> 300 <= Float.round_pos q.
Proof.
  intros Hlo Hhi. rewrite round_pos_binade_8 by lra.
  assert (Hm : (5277655813324800 <= Float.round_half_even (q / (1 # 17592186044416)))%Z).
  { apply rhe_tie_up; [| reflexivity].
    apply Qle_shift_div_l; [reflexivity |].
    change (inject_Z 5277655813324800) with (5277655813324800 # 1). lra. }
  rewrite Zle_Qle in Hm.
  change (inject_Z 5277655813324800) with (5277655813324800 # 1) in Hm.
  lra.
Qed.

Lemma round_pos_lt_300 q :
  0 < q -> q < 300 - (1 # 35184372088832) -> Float.round_pos q < 300.
Proof.
  intros Hpos Hhi.
  destruct (Qlt_le_dec q 256) as [Hsmall | Hbig].
  - apply Qle_lt_trans with (q + 1); [| lra].
    apply round_pos_le_succ.
    destruct (Qlt_le_dec q 1) as [Hlt1 | Hge1].
    + pose proof (ilog2_lt_1 q Hlt1). lia.
    + rewrite (ilog2_ge_1 q Hge1).
      pose proof (floor_lt q 256 Hsmall) as Hf.
      pose proof (floor_ge q 1 Hge1) as Hf1.
      assert (Z.log2 (Qfloor q) <= Z.log2 255)%Z
        by (apply Z.log2_le_mono; lia).
      change (Z.log2 255) with 7%Z in *. lia.
  - rewrite round_pos_binade_8 by lra.
    assert (Hm : (Float.round_half_even (q / (1 # 17592186044416))
                  <= 5277655813324800 - 1)%Z).
    { apply rhe_below.
      apply Qlt_shift_div_r; [reflexivity |].
      change (inject_Z 5277655813324800) with (5277655813324800 # 1). lra. }
    rewrite Zle_Qle in Hm.
    change (inject_Z (5277655813324800 - 1)) with (5277655813324799 # 1) in Hm.
    lra.
Qed.

(** The rounded value is below 300 exactly when the exact one is below
    [300 - 2^-45]: a tie at that point goes to 300, whose significand is
    even. *)
Lemma round_lt_300 q :
  Float.round q < 300 <-> q < 300 - (1 # 35184372088832).
Proof.
  unfold Float.round.
  destruct (Qcompare_spec q 0) as [H0 | Hneg | Hpos].
  - split; intros _; [rewrite H0 |]; reflexivity.
  - split; intros _; [lra |].
    pose proof (round_pos_nonneg (- q)). lra.
  - split.
    + intros Hr. destruct (Qlt_le_dec q (300 - (1 # 35184372088832)))
        as [Hlt | Hge]; [exact Hlt | exfalso].
      destruct (Qlt_le_dec q 300) as [Hlt3 | Hge3].
      * pose proof (round_pos_tie_300 q Hge Hlt3). lra.
      * pose proof (round_pos_ge_300 q Hge3). lra.
    + apply round_pos_lt_300, Hpos.
Qed.

End Rounding.

(** The test of line 72 in exact terms. *)
Lemma fresh_iff now timestamp :
  fresh now timestamp <-> (now - timestamp < EFFECTIVE_TTL)%Q.
Proof. unfold fresh, Float.sub, EFFECTIVE_TTL. apply round_lt_300. Qed.

Lemma fresh_exact now timestamp :
  fresh now timestamp -> (now - timestamp < inject_Z CACHE_TTL_SECONDS)%Q.
Proof.
  intros H. apply fresh_iff in H. unfold EFFECTIVE_TTL in H.
  change (inject_Z CACHE_TTL_SECONDS) with 300%Q. lra.
Qed.

Lemma stale_exact now timestamp :
  (inject_Z CACHE_TTL_SECONDS <= now - timestamp)%Q -> ~ fresh now timestamp.
Proof.
  intros H Hf. apply fresh_exact in Hf. apply (Qlt_not_le _ _ Hf H).
Qed.

Lemma get_cached_fresh now url content timestamp
    (cache : gmap string (string * Q)) :
  cache !! url = Some (content, timestamp) ->
  fresh now timestamp ->
  _get_cached now url cache = (Some content, cache).
Proof.
  intros Hl Hfresh. unfold _get_cached. rewrite Hl.
  apply Qlt_bool_iff in Hfresh. rewrite Hfresh. reflexivity.
Qed.

Lemma get_cached_not_fresh now url content timestamp
    (cache : gmap string (string * Q)) :
  cache !! url = Some (content, timestamp) ->
  ~ fresh now timestamp ->
  _get_cached now url cache = (None, delete url cache).
Proof.
  intros Hl Hstale. unfold _get_cached. rewrite Hl.
  destruct (Qlt_bool _ _) eqn:Hq; [| reflexivity].
  apply Qlt_bool_iff in Hq. destruct (Hstale Hq).
Qed.

Lemma get_cached_stale now url content timestamp
    (cache : gmap string (string * Q)) :
  cache !! url = Some (content, timestamp) ->
  (inject_Z CACHE_TTL_SECONDS <= now - timestamp)%Q ->
  _get_cached now url cache = (None, delete url cache).
Proof.
  intros Hl Hstale. apply (get_cached_not_fresh _ _ _ _ _ Hl).
  apply stale_exact, Hstale.
Qed.

Lemma get_cached_absent now url (cache : gmap string (string * Q)) :
  cache !! url = None -> _get_cached now url cache = (None, cache).
Proof. intros Hl. unfold _get_cached. rewrite Hl. reflexivity. Qed.

Lemma set_cache_size now url content (cache : gmap string (string * Q)) :
  size (_set_cache now url content cache) = S (size (delete url cache)).
Proof.
  unfold _set_cache. rewrite <- insert_delete_eq.
  apply map_size_insert_None, lookup_delete_eq.
Qed.

(** C3: after [_set_cache(u, c)] and a clock advance of at least the
    300-second TTL, [_get_cached(u)] returns [None] and deletes the entry
    of [u]; a [clear_web_cache()] that follows reports one entry fewer
    than the cache held before the lookup. *)
Theorem cache_expiry (cache : gmap string (string * Q)) u c t_put t_get :
  (inject_Z CACHE_TTL_SECONDS <= t_get - t_put)%Q ->
  let stored := _set_cache t_put u c cache in
  let looked := _get_cached t_get u stored in
  looked.1 = None
  /\ looked.2 !! u = None
  /\ looked.2 = delete u cache
  /\ size stored = S (size looked.2)
  /\ returned (clear_web_cache looked.2)
     = "Cleared " ++ Py.str_of_int (Z.of_nat (size stored) - 1)
         ++ " cached entries".
Proof.
  intros Hadv stored looked.
  assert (Hlooked : looked = (None, delete u cache)).
  { subst looked stored. unfold _set_cache.
    rewrite (get_cached_stale t_get u c t_put); [| apply lookup_insert_eq | exact Hadv].
    by rewrite delete_insert_eq. }
  rewrite Hlooked. simpl.
  assert (Hsize : size stored = S (size (delete u cache))).
  { apply set_cache_size. }
  repeat split.
  - apply lookup_delete_eq.
  - exact Hsize.
  - unfold clear_web_cache. simpl. rewrite Hsize.
    do 3 f_equal. lia.
Qed.

Lemma cache_expiry_witness :
  let stored := _set_cache 1000 "https://example.com" "page" ∅ in
  (_get_cached 1300 "https://example.com" stored).1 = None
  /\ returned (clear_web_cache (_get_cached 1300 "https://example.com" stored).2)
     = "Cleared 0 cached entries".
Proof.
  assert (H : (inject_Z CACHE_TTL_SECONDS <= 1300 - 1000)%Q)
    by (vm_compute; discriminate).
  pose proof (cache_expiry ∅ "https://example.com" "page" 1000 1300 H)
    as (H1 & _ & _ & _ & H5).
  split; [exact H1 | exact H5].
Defined.




(** C7: [clear_web_cache] empties the cache and reports the number of
    entries it held; after three distinct URLs have been cached in an
    empty cache it reports 3. *)
Theorem clear_web_cache_count :
  (forall cache : gmap string (string * Q),
     cache_after (clear_web_cache cache) = ∅
     /\ returned (clear_web_cache cache)
        = "Cleared " ++ Py.str_of_int (Z.of_nat (size cache)) ++ " cached entries"
     /\ requested (clear_web_cache cache) = [])
  /\ (forall u1 u2 u3 c1 c2 c3 t1 t2 t3,
        u1 <> u2 -> u1 <> u3 -> u2 <> u3 ->
        returned
          (clear_web_cache
             (_set_cache t3 u3 c3 (_set_cache t2 u2 c2 (_set_cache t1 u1 c1 ∅))))
        = "Cleared 3 cached entries").
Proof.
  split; [intros cache; repeat split |].
  intros u1 u2 u3 c1 c2 c3 t1 t2 t3 H12 H13 H23.
  unfold clear_web_cache, _set_cache. simpl.
  rewrite !map_size_insert_None, map_size_empty.
  - reflexivity.
  - apply lookup_empty.
  - rewrite lookup_insert_ne by congruence. apply lookup_empty.
  - rewrite !lookup_insert_ne by congruence. apply lookup_empty.
Qed.

Lemma clear_web_cache_count_witness :
  returned
    (clear_web_cache
       (_set_cache 3 "https://c.example" "C"
          (_set_cache 2 "https://b.example" "B"
             (_set_cache 1 "https://a.example" "A" ∅))))
  = "Cleared 3 cached entries".
Proof.
  apply (proj2 clear_web_cache_count); discriminate.
Defined.

(** ** URL normalisation *)

Lemma startswith_app prefix s : Py.startswith prefix (prefix ++ s) = true.
Proof.
  induction prefix as [| c r IH]; simpl; [reflexivity |].
  rewrite Ascii.eqb_refl. exact IH.
Qed.

Lemma startswith_inv prefix s :
  Py.startswith prefix s = true -> exists r, s = prefix ++ r.
Proof.
  revert s. induction prefix as [| c p IH]; intros s H; simpl in *.
  - exists s. reflexivity.
  - destruct s as [| c' s']; [discriminate |].
    apply andb_prop in H as [Hc Hs]. apply Ascii.eqb_eq in Hc as ->.
    destruct (IH _ Hs) as [r ->]. exists r. reflexivity.
Qed.

Lemma normalize_url_kept url :
  Py.startswith "http://" url || Py.startswith "https://" url = true ->
  normalize_url url = url.
Proof. intros H. unfold normalize_url. rewrite H. reflexivity. Qed.

Lemma normalize_url_prepended url :
  Py.startswith "http://" url || Py.startswith "https://" url = false ->
  normalize_url url = "https://" ++ url.
Proof. intros H. unfold normalize_url. rewrite H. reflexivity. Qed.

Lemma normalize_url_idempotent url :
  normalize_url (normalize_url url) = normalize_url url.
Proof.
  destruct (Py.startswith "http://" url || Py.startswith "https://" url) eqn:H.
  - rewrite (normalize_url_kept url H). apply normalize_url_kept, H.
  - rewrite (normalize_url_prepended url H). apply normalize_url_kept.
    rewrite (startswith_app "https://" url). apply orb_true_r.
Qed.

Lemma http_scheme_found url :
  Py.startswith "http://" url || Py.startswith "https://" url = true ->
  url_scheme url <> Some EmptyString.
Proof.
  intros H. apply orb_prop in H as [H | H];
    apply startswith_inv in H as [r ->];
    unfold url_scheme, Url.urlparse; simpl;
    repeat case_match; simpl; first [discriminate | intros [= Hs]; discriminate Hs].
Qed.

Lemma fetch_webpage_normalized env t_lookup t_store url max_chars
    (cache : gmap string (string * Q)) :
  fetch_webpage env t_lookup t_store (normalize_url url) max_chars cache
  = fetch_webpage env t_lookup t_store url max_chars cache.
Proof. unfold fetch_webpage. rewrite normalize_url_idempotent. reflexivity. Qed.

(** C6, as stated, fails: an input that carries a scheme other than
    [http] or [https] is not left unchanged. *)
Lemma scheme_kept_counterexample :
  ~ (forall url, spec_has_scheme url -> normalize_url url = url).
Proof.
  intros H. specialize (H "ftp://example.com").
  assert (Hs : spec_has_scheme "ftp://example.com").
  { exists "ftp". split; [vm_compute; reflexivity | discriminate]. }
  apply H in Hs. vm_compute in Hs. discriminate.
Qed.

(** C6, amended: an input that does not begin with the literal [http://]
    or [https://] (every input without a scheme is one) gets [https://]
    prepended, an input that begins with one of the two is left as it
    is, and the rest of [fetch_webpage] sees the normalised URL only. *)
Theorem normalization_by_prefix :
  (forall url,
     Py.startswith "http://" url || Py.startswith "https://" url = false ->
     normalize_url url = "https://" ++ url)
  /\ (forall url,
        url_scheme url = Some EmptyString -> normalize_url url = "https://" ++ url)
  /\ (forall url,
        Py.startswith "http://" url || Py.startswith "https://" url = true ->
        normalize_url url = url)
  /\ (forall env t_lookup t_store url max_chars
             (cache : gmap string (string * Q)),
        fetch_webpage env t_lookup t_store url max_chars cache
        = fetch_webpage env t_lookup t_store (normalize_url url) max_chars cache).
Proof.
  split; [exact normalize_url_prepended |].
  split; [| split; [exact normalize_url_kept |]].
  - intros url Hs. apply normalize_url_prepended.
    destruct (Py.startswith "http://" url || Py.startswith "https://" url) eqn:H;
      [| reflexivity].
    destruct (http_scheme_found url H Hs).
  - intros. symmetry. apply fetch_webpage_normalized.
Qed.

Lemma normalization_by_prefix_witness :
  normalize_url "example.com" = "https://example.com"
  /\ normalize_url "http://example.com" = "http://example.com".
Proof.
  destruct normalization_by_prefix as (_ & Hnone & Hkept & _). split.
  - apply (Hnone "example.com"). vm_compute. reflexivity.
  - apply (Hkept "http://example.com"). vm_compute. reflexivity.
Defined.

(** ** The orchestrator *)

Lemma fetch_without_requests env t_lookup t_store url max_chars
    (cache : gmap string (string * Q)) :
  requests_installed env = false ->
  fetch_webpage env t_lookup t_store url max_chars cache
  = {| returned := "Error: 'requests' library not installed. Run: pip install requests beautifulsoup4";
       cache_after := cache; requested := [] |}.
Proof. intros H. unfold fetch_webpage. rewrite H. reflexivity. Qed.

Lemma fetch_blocked env t_lookup t_store url max_chars
    (cache : gmap string (string * Q)) :
  requests_installed env = true ->
  _is_ssrf_blocked (normalize_url url) = true ->
  fetch_webpage env t_lookup t_store url max_chars cache
  = {| returned := blocked_message (normalize_url url);
       cache_after := cache; requested := [] |}.
Proof. intros Hi Hb. unfold fetch_webpage. rewrite Hi, Hb. reflexivity. Qed.

(** C2, as stated, fails: the guard blocks [ftp://localhost/], yet
    [fetch_webpage] hands the URL it makes of it to [requests.get]. *)
Lemma blocked_url_requested_counterexample :
  _is_ssrf_blocked "ftp://localhost/" = true
  /\ (let call :=
        fetch_webpage (env_with Timeout None) 0 0 "ftp://localhost/"
          DEFAULT_MAX_CHARS ∅ in
      requested call = ["https://ftp://localhost/"]
      /\ returned call = "Error: Request timed out for: https://ftp://localhost/").
Proof. vm_compute. auto. Qed.

(** C2, amended: when the guard blocks the normalised URL, the call
    hands nothing to [requests.get] and leaves the cache as it found it;
    with [requests] importable it returns the security rejection, which
    names the normalised URL. *)
Theorem blocked_url_rejected env t_lookup t_store url max_chars
    (cache : gmap string (string * Q)) :
  _is_ssrf_blocked (normalize_url url) = true ->
  let call := fetch_webpage env t_lookup t_store url max_chars cache in
  requested call = []
  /\ cache_after call = cache
  /\ (requests_installed env = true ->
      returned call
      = "Error: URL blocked for security reasons (internal/private address): "
          ++ normalize_url url).
Proof.
  intros Hb call. subst call.
  destruct (requests_installed env) eqn:Hi.
  - rewrite fetch_blocked by assumption. auto.
  - rewrite fetch_without_requests by assumption. repeat split. discriminate.
Qed.

Lemma blocked_url_rejected_witness :
  let cache := _set_cache 5 "https://example.com" "page" ∅ in
  let call :=
    fetch_webpage (env_with Timeout None) 10 10 "http://localhost:8080/admin"
      DEFAULT_MAX_CHARS cache in
  requested call = [] /\ cache_after call = cache
  /\ returned call
     = "Error: URL blocked for security reasons (internal/private address): http://localhost:8080/admin".
Proof.
  intros cache call.
  assert (Hb : _is_ssrf_blocked (normalize_url "http://localhost:8080/admin") = true)
    by (vm_compute; reflexivity).
  destruct (blocked_url_rejected (env_with Timeout None) 10 10
              "http://localhost:8080/admin" DEFAULT_MAX_CHARS cache Hb)
    as (H1 & H2 & H3).
  split; [exact H1 | split; [exact H2 | exact (H3 eq_refl)]].
Defined.

Lemma fetch_cached env t_lookup t_store url max_chars
    (cache : gmap string (string * Q)) c0 rest timestamp :
  requests_installed env = true ->
  _is_ssrf_blocked (normalize_url url) = false ->
  cache !! normalize_url url = Some (String c0 rest, timestamp) ->
  fresh t_lookup timestamp ->
  fetch_webpage env t_lookup t_store url max_chars cache
  = {| returned := "(cached)" ++ Py.LF ++ Py.LF ++ String c0 rest;
       cache_after := cache; requested := [] |}.
Proof.
  intros Hi Hb Hl Hfresh. unfold fetch_webpage. rewrite Hi, Hb. simpl negb.
  cbv iota. rewrite (get_cached_fresh _ _ _ _ _ Hl Hfresh). reflexivity.
Qed.

(** Past the cache, every path hands the normalised URL to
    [requests.get], once. *)
Lemma fetch_miss_requests env t_lookup t_store url max_chars
    (cache : gmap string (string * Q)) :
  requests_installed env = true ->
  _is_ssrf_blocked (normalize_url url) = false ->
  cache_miss t_lookup (normalize_url url) cache ->
  requested (fetch_webpage env t_lookup t_store url max_chars cache)
  = [normalize_url url].
Proof.
  intros Hi Hb Hm. unfold fetch_webpage, cache_miss in *. rewrite Hi, Hb.
  simpl negb. cbv iota.
  destruct (_get_cached t_lookup (normalize_url url) cache) as [cached cache'].
  simpl in Hm. destruct cached as [[| c0 rest] |]; [| contradiction |];
    repeat case_match; reflexivity.
Qed.

(** C10: a cache entry within its TTL (the age that line 72 computes on
    floats is below 300, [fresh]) is served, with the [(cached)] prefix
    and without a request, only when its content is not the empty string;
    an entry within its TTL that holds the empty string is passed over
    and the URL is requested again. *)
Theorem cached_only_when_nonempty env t_lookup t_store url max_chars
    (cache : gmap string (string * Q)) content timestamp :
  requests_installed env = true ->
  _is_ssrf_blocked (normalize_url url) = false ->
  cache !! normalize_url url = Some (content, timestamp) ->
  fresh t_lookup timestamp ->
  let call := fetch_webpage env t_lookup t_store url max_chars cache in
  (content <> EmptyString ->
   returned call = "(cached)" ++ Py.LF ++ Py.LF ++ content
   /\ requested call = [] /\ cache_after call = cache)
  /\ (content = EmptyString ->
      requested call = [normalize_url url]
      /\ Py.startswith "(cached)" (returned call) = false).
Proof.
  intros Hi Hb Hl Hfresh call. subst call. split.
  - intros Hne. destruct content as [| c0 rest]; [congruence |].
    rewrite (fetch_cached _ _ _ _ _ _ _ _ _ Hi Hb Hl Hfresh). auto.
  - intros ->. split.
    + apply fetch_miss_requests; try assumption.
      unfold cache_miss. rewrite (get_cached_fresh _ _ _ _ _ Hl Hfresh). exact I.
    + unfold fetch_webpage. rewrite Hi, Hb. simpl negb. cbv iota.
      rewrite (get_cached_fresh _ _ _ _ _ Hl Hfresh).
      repeat case_match; reflexivity.
Qed.

Lemma cached_only_when_nonempty_witness :
  let env := env_with (page "<title>T</title>fresh" "https://example.com/" NoLength) None in
  let call :=
    fetch_webpage env 10 11 "example.com" DEFAULT_MAX_CHARS
      (_set_cache 5 "https://example.com" EmptyString ∅) in
  requested call = ["https://example.com"]
  /\ Py.startswith "(cached)" (returned call) = false.
Proof.
  intros env call.
  apply (cached_only_when_nonempty env 10 11 "example.com" DEFAULT_MAX_CHARS
           (_set_cache 5 "https://example.com" EmptyString ∅) EmptyString 5).
  - reflexivity.
  - vm_compute. reflexivity.
  - vm_compute. reflexivity.
  - vm_compute. reflexivity.
  - reflexivity.
Defined.

Lemma append_assoc (s1 s2 s3 : string) : (s1 ++ s2) ++ s3 = s1 ++ s2 ++ s3.
Proof.
  induction s1 as [| c r IH]; [reflexivity |].
  change (String c ((r ++ s2) ++ s3) = String c (r ++ s2 ++ s3)). congruence.
Qed.

Lemma take_prefix n s :
  (N.to_nat n <= String.length s)%nat ->
  String.length (Py.take n s) = N.to_nat n
  /\ exists rest, s = Py.take n s ++ rest.
Proof.
  revert n. induction s as [| c r IH]; intros n Hn; simpl in *.
  - split; [lia | exists EmptyString; reflexivity].
  - destruct (N.eqb_spec n 0) as [-> | Hne]; simpl.
    + split; [reflexivity | eexists; reflexivity].
    + destruct (IH (N.pred n)) as (Hlen & rest & Hrest); [lia |].
      split; [rewrite Hlen; lia |].
      exists rest.
      change (String c r = String c (Py.take (N.pred n) r ++ rest)).
      congruence.
Qed.

Lemma slice_to_prefix s n :
  0 <= n <= Py.len s ->
  Py.len (Py.slice_to s n) = n /\ exists rest, s = Py.slice_to s n ++ rest.
Proof.
  intros Hn. unfold Py.slice_to, Py.len in *.
  destruct (Z.ltb_spec n 0) as [? | _]; [lia |].
  destruct (take_prefix (Z.to_N n) s) as (Hlen & Hrest); [lia |].
  split; [rewrite Hlen; lia | exact Hrest].
Qed.

Lemma fetch_extracts env t_lookup t_store url max_chars
    (cache : gmap string (string * Q)) response title body :
  extracts env t_lookup url cache response title body ->
  let result := format_result title (final_url response) (truncate body max_chars) in
  fetch_webpage env t_lookup t_store url max_chars cache
  = {| returned := result;
       cache_after :=
         _set_cache t_store (normalize_url url) result
           (_get_cached t_lookup (normalize_url url) cache).2;
       requested := [normalize_url url] |}.
Proof.
  intros (Hi & Hb & Hm & Hget & Hsize & Htitle & Hbody) result. subst result.
  unfold fetch_webpage, cache_miss, size_accepted in *. rewrite Hi, Hb.
  simpl negb. cbv iota.
  destruct (_get_cached t_lookup (normalize_url url) cache) as [cached cache'].
  simpl in Hm. simpl snd.
  assert (Hpage :
    match header_content_length response with
    | NoLength => true
    | Length n => negb (MAX_CONTENT_LENGTH <? n)
    | BadLength _ => false
    end = true).
  { destruct (header_content_length response); try easy.
    apply negb_true_iff, Z.ltb_ge, Hsize. }
  destruct cached as [[| c0 rest] |]; [| contradiction |];
    rewrite Hget, Htitle, Hbody;
    destruct (header_content_length response) as [| n | e];
    try discriminate; try reflexivity;
    apply negb_true_iff in Hpage; rewrite Hpage; reflexivity.
Qed.

(** C5 at a negative limit: the body of twelve characters comes back
    without its last three, nine characters where the limit is [-3], and
    the marker names [-3].  Line 194 slices with a limit that nothing has
    validated. *)
Theorem truncation_negative_limit :
  let env :=
    env_with (page "<title>T</title><p>abcdefghij</p>" "https://example.com/" NoLength) None in
  let call := fetch_webpage env 0 0 "example.com" (-3) ∅ in
  extracts env 0 "example.com" ∅
    {| header_content_length := NoLength;
       text := "<title>T</title><p>abcdefghij</p>";
       final_url := "https://example.com/" |}
    "T" "T abcdefghij"
  /\ -3 < Py.len "T abcdefghij"
  /\ returned call
     = "Title: T" ++ Py.LF ++ "URL: https://example.com/" ++ Py.LF ++ Py.LF
         ++ "T abcdefg" ++ Py.LF ++ Py.LF ++ "... (truncated at -3 characters)"
  /\ Py.len "T abcdefg" = 9
  /\ "T abcdefghij" = "T abcdefg" ++ "hij".
Proof.
  intros env call. split; [| split; [| split; [| split]]].
  - repeat split; vm_compute; congruence.
  - reflexivity.
  - vm_compute. reflexivity.
  - reflexivity.
  - reflexivity.
Qed.

(** X25: truncation at a limit that is not negative.  A body longer
    than [max_chars] comes back as its first [max_chars] characters,
    exactly, followed by the marker that names the limit; a body of at
    most [max_chars] characters comes back as it is, with no marker. *)
Theorem truncation env t_lookup t_store url max_chars
    (cache : gmap string (string * Q)) response title body :
  extracts env t_lookup url cache response title body ->
  0 <= max_chars ->
  let call := fetch_webpage env t_lookup t_store url max_chars cache in
  let heading :=
    "Title: " ++ title ++ Py.LF ++ "URL: " ++ final_url response
      ++ Py.LF ++ Py.LF in
  (max_chars < Py.len body ->
   exists content rest,
     returned call
     = heading ++ content ++ Py.LF ++ Py.LF
         ++ "... (truncated at " ++ Py.str_of_int max_chars ++ " characters)"
     /\ Py.len content = max_chars
     /\ body = content ++ rest)
  /\ (Py.len body <= max_chars -> returned call = heading ++ body).
Proof.
  intros Hex Hpos call heading. subst call heading.
  rewrite (fetch_extracts _ _ _ _ _ _ _ _ _ Hex). simpl returned.
  unfold format_result, truncate, truncation_marker.
  rewrite !append_assoc. split.
  - intros Hlong. apply Z.ltb_lt in Hlong as Hlt. rewrite Hlt.
    destruct (slice_to_prefix body max_chars) as (Hlen & rest & Hrest);
      [lia |].
    exists (Py.slice_to body max_chars), rest.
    split; [rewrite !append_assoc; reflexivity |].
    split; [exact Hlen | exact Hrest].
  - intros Hshort. apply Z.ltb_ge in Hshort. rewrite Hshort. reflexivity.
Qed.

Lemma truncation_witness :
  let env := env_with (page "<title>T</title><p>abcdefghij</p>" "https://example.com/" NoLength) None in
  (exists content rest,
     returned (fetch_webpage env 0 0 "example.com" 4 ∅)
     = ("Title: " ++ "T" ++ Py.LF ++ "URL: " ++ "https://example.com/"
          ++ Py.LF ++ Py.LF)
         ++ content ++ Py.LF ++ Py.LF
         ++ "... (truncated at " ++ Py.str_of_int 4 ++ " characters)"
     /\ Py.len content = 4
     /\ "T abcdefghij" = content ++ rest)
  /\ returned (fetch_webpage env 0 0 "example.com" 50 ∅)
     = "Title: T" ++ Py.LF ++ "URL: https://example.com/" ++ Py.LF ++ Py.LF
         ++ "T abcdefghij".
Proof.
  intros env.
  assert (Hex : forall response,
            requests_get env "https://example.com" = Got response ->
            extracts env 0 "example.com" ∅ response "T" "T abcdefghij").
  { intros response [= <-]. repeat split; vm_compute; congruence. }
  split.
  - apply (truncation env 0 0 "example.com" 4 ∅ _ "T" "T abcdefghij"
             (Hex _ eq_refl)); [lia |].
    vm_compute. reflexivity.
  - apply (truncation env 0 0 "example.com" 50 ∅ _ "T" "T abcdefghij"
             (Hex _ eq_refl)); [lia |].
    vm_compute. discriminate.
Defined.







(** ** The title extractor *)

Lemma strip_prefix_ci_app pat s : strip_prefix_ci pat (pat ++ s) = Some s.
Proof.
  induction pat as [| c r IH]; [reflexivity |].
  change (String c r ++ s) with (String c (r ++ s)). simpl.
  rewrite Ascii.eqb_refl. exact IH.
Qed.


Lemma lower_char_fixes c x :
  Py.code x < 97 -> Py.lower_char c = x -> c = x.
Proof.
  intros Hx H.
  destruct c as [[] [] [] [] [] [] [] []]; vm_compute in H;
    first [exact H | subst x; vm_compute in Hx; discriminate Hx].
Qed.










Lemma get_title_fallback env markup :
  uses_fallback env markup -> _get_title env markup = _get_title_fallback markup.
Proof.
  unfold _get_title. intros [-> | (soup & e & -> & ->)]; reflexivity.
Qed.




(** * Further properties of the web tool *)

(** ** The cache on its own *)

(** X1: the TTL in exact terms.  A lookup returns a content exactly
    when the cache holds that content for the URL and the clock has
    advanced by less than [300 - 2^-45] seconds since it was stored: the
    age is computed on floats, and every exact age from [300 - 2^-45] on
    rounds to 300 or more.  A lookup that returns a content leaves the
    cache as it is; an entry of that age or older is evicted. *)
Theorem get_cached_effective_ttl now url (cache : gmap string (string * Q))
    content :
  ((_get_cached now url cache).1 = Some content
   <-> exists timestamp,
         cache !! url = Some (content, timestamp)
         /\ (now - timestamp < EFFECTIVE_TTL)%Q)
  /\ ((_get_cached now url cache).1 = Some content ->
      (_get_cached now url cache).2 = cache)
  /\ (forall timestamp,
        cache !! url = Some (content, timestamp) ->
        (EFFECTIVE_TTL <= now - timestamp)%Q ->
        _get_cached now url cache = (None, delete url cache)).
Proof.
  destruct (cache !! url) as [[c ts] |] eqn:Hl.
  - destruct (Qlt_le_dec (now - ts) EFFECTIVE_TTL) as [Hfresh | Hstale].
    + rewrite (get_cached_fresh now url c ts cache Hl)
        by (apply fresh_iff, Hfresh).
      split; [| split; [reflexivity |]].
      * split; [intros [= <-]; eauto |].
        intros (ts' & [= <- <-] & _). reflexivity.
      * intros ts' [= _ <-] Hge. destruct (Qlt_not_le _ _ Hfresh Hge).
    + assert (Hnot : ~ fresh now ts).
      { intros Hf. apply fresh_iff in Hf. apply (Qlt_not_le _ _ Hf Hstale). }
      rewrite (get_cached_not_fresh now url c ts cache Hl Hnot).
      split; [| split; [discriminate | reflexivity]].
      split; [discriminate |].
      intros (ts' & [= <- <-] & Hlt). destruct (Qlt_not_le _ _ Hlt Hstale).
  - rewrite (get_cached_absent now url cache Hl).
    split; [| split; [discriminate | discriminate]].
    split; [discriminate |]. intros (ts' & [=] & _).
Qed.

Lemma get_cached_cases now url (cache : gmap string (string * Q)) :
  (_get_cached now url cache).2 = cache
  \/ ((_get_cached now url cache).1 = None
      /\ (_get_cached now url cache).2 = delete url cache).
Proof.
  unfold _get_cached. destruct (cache !! url) as [[c ts] |]; [| auto].
  destruct (Qlt_bool _ _); simpl; auto.
Qed.

(** X2: a lookup never adds an entry and never touches the entry of
    another URL; the only change it can make is to drop the entry it
    was asked for. *)
Theorem get_cached_frame now url (cache : gmap string (string * Q)) :
  let after := (_get_cached now url cache).2 in
  after ⊆ cache
  /\ (forall other, other <> url -> after !! other = cache !! other)
  /\ (after !! url = cache !! url \/ after !! url = None)
  /\ (size after <= size cache)%nat.
Proof.
  intros after. subst after.
  destruct (get_cached_cases now url cache) as [-> | [_ ->]].
  - repeat split; auto.
  - split; [apply delete_subseteq |].
    split; [intros other Hne; apply lookup_delete_ne; congruence |].
    split; [right; apply lookup_delete_eq |].
    apply map_subseteq_size, delete_subseteq.
Qed.

(** X3: caching a URL again replaces both the content and the
    timestamp, and caching one URL changes no lookup of another. *)
Theorem set_cache_overwrites (cache : gmap string (string * Q))
    t1 t2 url content1 content2 :
  _set_cache t2 url content2 (_set_cache t1 url content1 cache)
  = _set_cache t2 url content2 cache
  /\ (forall now other t content,
        other <> url ->
        (_get_cached now other (_set_cache t url content cache)).1
        = (_get_cached now other cache).1).
Proof.
  split.
  - unfold _set_cache. apply insert_insert_eq.
  - intros now other t content Hne. unfold _get_cached, _set_cache.
    rewrite lookup_insert_ne by congruence.
    destruct (cache !! other) as [[c ts] |]; [| reflexivity].
    destruct (Qlt_bool _ _); reflexivity.
Qed.

Lemma get_cached_effective_ttl_witness :
  (_get_cached 1299 "https://example.com"
     (_set_cache 1000 "https://example.com" "page" ∅)).1 = Some "page"
  /\ _get_cached 300 "https://example.com"
       (_set_cache (1 # 1152921504606846976) "https://example.com" "page" ∅)
     = (None, delete "https://example.com"
                (_set_cache (1 # 1152921504606846976) "https://example.com"
                   "page" ∅)).
Proof.
  split.
  - apply (proj1 (get_cached_effective_ttl 1299 "https://example.com"
                    (_set_cache 1000 "https://example.com" "page" ∅) "page")).
    exists 1000%Q. split; [reflexivity | vm_compute; reflexivity].
  - apply (proj2 (proj2 (get_cached_effective_ttl 300 "https://example.com"
                           (_set_cache (1 # 1152921504606846976)
                              "https://example.com" "page" ∅) "page"))
             (1 # 1152921504606846976)%Q).
    + reflexivity.
    + vm_compute. discriminate.
Defined.

Lemma get_cached_frame_witness :
  let cache :=
    _set_cache 1000 "https://b.example" "B"
      (_set_cache 0 "https://a.example" "A" ∅) in
  (_get_cached 1000 "https://a.example" cache).2 !! "https://b.example"
  = cache !! "https://b.example".
Proof.
  intros cache.
  apply (get_cached_frame 1000 "https://a.example" cache). discriminate.
Defined.

Lemma set_cache_overwrites_witness :
  (_get_cached 10 "https://b.example"
     (_set_cache 5 "https://a.example" "A"
        (_set_cache 1 "https://b.example" "B" ∅))).1
  = (_get_cached 10 "https://b.example"
       (_set_cache 1 "https://b.example" "B" ∅)).1.
Proof.
  apply (proj2 (set_cache_overwrites (_set_cache 1 "https://b.example" "B" ∅)
                  0 0 "https://a.example" "A" "A")).
  discriminate.
Defined.

(** ** The orchestrator and the cache *)

(** What a call can do to the cache: nothing, drop the entry of the
    requested URL, or store the page it returns under that URL. *)
Lemma fetch_cache_after env t_lookup t_store url max_chars
    (cache : gmap string (string * Q)) :
  let call := fetch_webpage env t_lookup t_store url max_chars cache in
  let seen := (_get_cached t_lookup (normalize_url url) cache).2 in
  cache_after call = cache
  \/ cache_after call = seen
  \/ (Py.startswith "Title: " (returned call) = true
      /\ requested call = [normalize_url url]
      /\ cache_after call
         = _set_cache t_store (normalize_url url) (returned call) seen).
Proof.
  intros call seen. subst call seen. unfold fetch_webpage.
  destruct (requests_installed env); [| auto]. simpl negb. cbv iota.
  destruct (_is_ssrf_blocked (normalize_url url)); [auto |].
  destruct (_get_cached t_lookup (normalize_url url) cache) as [cached cache'].
  simpl snd.
  repeat case_match; simpl; auto.
Qed.

(** X4: whatever a call does, it leaves the cache entries of every
    other URL as they were. *)
Theorem fetch_keeps_other_entries env t_lookup t_store url max_chars
    (cache : gmap string (string * Q)) other :
  other <> normalize_url url ->
  cache_after (fetch_webpage env t_lookup t_store url max_chars cache) !! other
  = cache !! other.
Proof.
  intros Hne.
  assert (Hframe :
    (_get_cached t_lookup (normalize_url url) cache).2 !! other
    = cache !! other).
  { destruct (get_cached_cases t_lookup (normalize_url url) cache)
      as [-> | [_ ->]]; [reflexivity |].
    apply lookup_delete_ne. congruence. }
  destruct (fetch_cache_after env t_lookup t_store url max_chars cache)
    as [-> | [-> | (_ & _ & ->)]].
  - reflexivity.
  - exact Hframe.
  - unfold _set_cache. rewrite lookup_insert_ne by congruence.
    exact Hframe.
Qed.

Lemma fetch_keeps_other_entries_witness :
  let cache := _set_cache 0 "https://a.example" "A" ∅ in
  let env := env_with (page "<title>B</title>b" "https://b.example/" NoLength) None in
  cache_after (fetch_webpage env 1 2 "b.example" DEFAULT_MAX_CHARS cache)
    !! "https://a.example"
  = cache !! "https://a.example".
Proof.
  intros cache env. apply fetch_keeps_other_entries. discriminate.
Defined.

(** X5: an error is never cached.  A call that returns an error leaves a
    cache that holds nothing the cache before did not hold; the one
    change it can have made is the eviction of the expired entry of the
    requested URL. *)
Theorem errors_not_cached env t_lookup t_store url max_chars
    (cache : gmap string (string * Q)) :
  let call := fetch_webpage env t_lookup t_store url max_chars cache in
  Py.startswith "Error" (returned call) = true ->
  cache_after call ⊆ cache
  /\ (cache_after call = cache
      \/ cache_after call = delete (normalize_url url) cache).
Proof.
  intros call Herr. subst call.
  assert (Hcases :
    cache_after (fetch_webpage env t_lookup t_store url max_chars cache) = cache
    \/ cache_after (fetch_webpage env t_lookup t_store url max_chars cache)
       = delete (normalize_url url) cache).
  { destruct (fetch_cache_after env t_lookup t_store url max_chars cache)
      as [H | [H | (Htitle & _ & _)]].
    - auto.
    - rewrite H.
      destruct (get_cached_cases t_lookup (normalize_url url) cache)
        as [-> | [_ ->]]; auto.
    - apply startswith_inv in Herr as [r1 H1].
      apply startswith_inv in Htitle as [r2 H2].
      rewrite H1 in H2. discriminate H2. }
  split; [| exact Hcases].
  destruct Hcases as [-> | ->]; [reflexivity | apply delete_subseteq].
Qed.

Lemma errors_not_cached_witness :
  let cache := _set_cache 0 "https://example.com" "old page" ∅ in
  let call :=
    fetch_webpage (env_with Timeout None) 1000 1001 "example.com"
      DEFAULT_MAX_CHARS cache in
  cache_after call ⊆ cache
  /\ (cache_after call = cache
      \/ cache_after call = delete (normalize_url "example.com") cache).
Proof.
  intros cache call.
  apply (errors_not_cached (env_with Timeout None) 1000 1001 "example.com"
           DEFAULT_MAX_CHARS cache).
  vm_compute. reflexivity.
Defined.

(** X6: a page that was fetched is served from the cache for as long
    as its entry stays and is within its TTL.  After a call that fetched
    and stored a page, a call for a URL with the same normalised form,
    made on a cache that still holds the entry of that store (calls for
    other URLs may have come in between; [clear_web_cache] or a new fetch
    of the URL may not) at a reading that line 72 finds within the TTL of
    the store, returns that page behind the [(cached)] prefix whatever
    [max_chars] it is given, asks nothing of the network and leaves the
    cache as it is. *)
Theorem refetch_served_from_cache env env' t_lookup t_store t_again t_store'
    url url' max_chars max_chars'
    (cache cache' : gmap string (string * Q)) response title body :
  extracts env t_lookup url cache response title body ->
  requests_installed env' = true ->
  normalize_url url' = normalize_url url ->
  let first := fetch_webpage env t_lookup t_store url max_chars cache in
  cache' !! normalize_url url = cache_after first !! normalize_url url ->
  fresh t_again t_store ->
  cache_after first !! normalize_url url = Some (returned first, t_store)
  /\ fetch_webpage env' t_again t_store' url' max_chars' cache'
     = {| returned := "(cached)" ++ Py.LF ++ Py.LF ++ returned first;
          cache_after := cache';
          requested := [] |}.
Proof.
  intros Hex Hi' Hsame first. subst first.
  pose proof Hex as (_ & Hb & _).
  rewrite (fetch_extracts _ _ _ _ _ _ _ _ _ Hex). simpl cache_after.
  simpl returned. intros Hkept Hfresh.
  assert (Hl : _set_cache t_store (normalize_url url)
                 (format_result title (final_url response)
                    (truncate body max_chars))
                 (_get_cached t_lookup (normalize_url url) cache).2
               !! normalize_url url
               = Some (format_result title (final_url response)
                         (truncate body max_chars), t_store)).
  { apply lookup_insert_eq. }
  split; [exact Hl |].
  rewrite Hl in Hkept.
  assert (Hshape : exists c0 rest,
            format_result title (final_url response) (truncate body max_chars)
            = String c0 rest).
  { unfold format_result. eexists _, _. reflexivity. }
  destruct Hshape as (c0 & rest & Hshape). rewrite Hshape in *.
  apply (fetch_cached env' t_again t_store' url' max_chars' _ c0 rest t_store);
    rewrite ?Hsame; assumption.
Qed.

Lemma refetch_served_from_cache_witness :
  let env := env_with (page "<title>T</title><p>abcdefghij</p>" "https://example.com/" NoLength) None in
  let first := fetch_webpage env 0 1 "example.com" 4 ∅ in
  let between :=
    fetch_webpage env 2 3 "other.example" DEFAULT_MAX_CHARS (cache_after first) in
  fetch_webpage (env_with ConnectionError None) 300 300 "https://example.com"
    DEFAULT_MAX_CHARS (cache_after between)
  = {| returned := "(cached)" ++ Py.LF ++ Py.LF ++ returned first;
       cache_after := cache_after between;
       requested := [] |}.
Proof.
  intros env first between.
  assert (Hex : extracts env 0 "example.com" ∅
                  {| header_content_length := NoLength;
                     text := "<title>T</title><p>abcdefghij</p>";
                     final_url := "https://example.com/" |}
                  "T" "T abcdefghij").
  { repeat split; vm_compute; congruence. }
  apply (refetch_served_from_cache env (env_with ConnectionError None)
           0 1 300 300 "example.com" "https://example.com" 4
           DEFAULT_MAX_CHARS ∅ (cache_after between) _ "T" "T abcdefghij" Hex).
  - reflexivity.
  - vm_compute. reflexivity.
  - vm_compute. reflexivity.
  - vm_compute. reflexivity.
Defined.

(** X7: the tool never hands [requests.get] a URL that the guard
    blocks: a call makes at most one request, and that request is for
    the normalised URL, which the guard has passed. *)
Theorem requests_only_unblocked env t_lookup t_store url max_chars
    (cache : gmap string (string * Q)) :
  let call := fetch_webpage env t_lookup t_store url max_chars cache in
  (requested call = [] \/ requested call = [normalize_url url])
  /\ (forall target, In target (requested call) ->
        target = normalize_url url /\ _is_ssrf_blocked target = false).
Proof.
  intros call. subst call. unfold fetch_webpage.
  destruct (requests_installed env); simpl negb; cbv iota;
    [| split; [auto | intros ? []]].
  destruct (_is_ssrf_blocked (normalize_url url)) eqn:Hb;
    [split; [auto | intros ? []] |].
  destruct (_get_cached t_lookup (normalize_url url) cache) as [cached cache'].
  repeat case_match; simpl;
    (split; [auto | intros target Hin; intuition (subst; auto)]).
Qed.

(** X8: once [clear_web_cache] has run, nothing is served from the
    cache: the next call for any URL that passes the guard asks the
    network. *)
Theorem clear_then_fetch env t_lookup t_store url max_chars
    (cache : gmap string (string * Q)) :
  requests_installed env = true ->
  _is_ssrf_blocked (normalize_url url) = false ->
  let call :=
    fetch_webpage env t_lookup t_store url max_chars
      (cache_after (clear_web_cache cache)) in
  requested call = [normalize_url url]
  /\ Py.startswith "(cached)" (returned call) = false.
Proof.
  intros Hi Hb call. subst call. simpl cache_after. split.
  - apply fetch_miss_requests; try assumption.
    unfold cache_miss, _get_cached. rewrite lookup_empty. exact I.
  - unfold fetch_webpage. rewrite Hi, Hb. simpl negb. cbv iota.
    unfold _get_cached. rewrite lookup_empty.
    repeat case_match; reflexivity.
Qed.

Lemma clear_then_fetch_witness :
  let env := env_with (page "<title>T</title>x" "https://example.com/" NoLength) None in
  let cache := _set_cache 0 "https://example.com" "old" ∅ in
  requested
    (fetch_webpage env 1 1 "example.com" DEFAULT_MAX_CHARS
       (cache_after (clear_web_cache cache)))
  = ["https://example.com"].
Proof.
  intros env cache.
  apply (clear_then_fetch env 1 1 "example.com" DEFAULT_MAX_CHARS cache).
  - reflexivity.
  - vm_compute. reflexivity.
Defined.

(** X9: an expired page is not kept as a fallback.  When the cache holds
    an expired entry for the URL and the request fails, the call returns
    the error and the expired entry is gone. *)
Theorem failed_refresh_drops_stale env t_lookup t_store url max_chars
    (cache : gmap string (string * Q)) content timestamp :
  requests_installed env = true ->
  _is_ssrf_blocked (normalize_url url) = false ->
  cache !! normalize_url url = Some (content, timestamp) ->
  (inject_Z CACHE_TTL_SECONDS <= t_lookup - timestamp)%Q ->
  let call := fetch_webpage env t_lookup t_store url max_chars cache in
  Py.startswith "Error" (returned call) = true ->
  cache_after call = delete (normalize_url url) cache
  /\ cache_after call !! normalize_url url = None
  /\ requested call = [normalize_url url].
Proof.
  intros Hi Hb Hl Hstale call Herr. subst call.
  pose proof (get_cached_stale _ _ _ _ _ Hl Hstale) as Hget.
  assert (Hreq : requested (fetch_webpage env t_lookup t_store url max_chars cache)
                 = [normalize_url url]).
  { apply fetch_miss_requests; try assumption.
    unfold cache_miss. rewrite Hget. exact I. }
  assert (Hafter : cache_after (fetch_webpage env t_lookup t_store url max_chars cache)
                   = delete (normalize_url url) cache).
  { revert Herr. unfold fetch_webpage. rewrite Hi, Hb. simpl negb. cbv iota.
    rewrite Hget.
    repeat case_match; simpl; intros Herr; first [reflexivity | discriminate Herr]. }
  rewrite Hafter. repeat split; [apply lookup_delete_eq | exact Hreq].
Qed.

Lemma failed_refresh_drops_stale_witness :
  let cache := _set_cache 0 "https://example.com" "old page" ∅ in
  cache_after
    (fetch_webpage (env_with Timeout None) 300 301 "example.com"
       DEFAULT_MAX_CHARS cache)
  = delete (normalize_url "example.com") cache.
Proof.
  intros cache.
  apply (failed_refresh_drops_stale (env_with Timeout None) 300 301
           "example.com" DEFAULT_MAX_CHARS cache "old page" 0).
  - reflexivity.
  - vm_compute. reflexivity.
  - vm_compute. reflexivity.
  - vm_compute. discriminate.
  - vm_compute. reflexivity.
Defined.

Lemma requests_only_unblocked_witness :
  let env := env_with (page "<title>T</title>x" "https://example.com/" NoLength) None in
  _is_ssrf_blocked "https://example.com" = false.
Proof.
  intros env.
  destruct (requests_only_unblocked env 0 0 "example.com" DEFAULT_MAX_CHARS ∅)
    as [_ H].
  apply (H "https://example.com"). vm_compute. auto.
Defined.


(** ** The guard beyond the five blocks *)

Lemma lower_fixes s t :
  Py.all_chars (fun x => Py.code x <? 97) t = true -> Py.lower s = t -> s = t.
Proof.
  revert t. induction s as [| c r IH]; intros [| x t] Ht Hl;
    simpl in *; try discriminate; [reflexivity |].
  apply andb_prop in Ht as [Hx Ht]. apply Z.ltb_lt in Hx.
  injection Hl as Hc Hr.
  apply (lower_char_fixes c x Hx) in Hc. subst. f_equal. apply IH; auto.
Qed.

Lemma contains_char_lower x s :
  Py.code x < 65 ->
  Py.contains_char x (Py.lower s) = Py.contains_char x s.
Proof.
  intros Hx. unfold Py.lower.
  induction s as [| c r IH]; [reflexivity |].
  simpl. rewrite IH. f_equal.
  destruct (Ascii.eqb_spec (Py.lower_char c) x) as [Heq | Hne].
  - apply (lower_char_fixes c x) in Heq; [| lia].
    subst. symmetry. apply Ascii.eqb_refl.
  - destruct (Ascii.eqb_spec c x) as [-> | _]; [| reflexivity].
    exfalso. apply Hne. clear -Hx.
    destruct x as [[] [] [] [] [] [] [] []]; vm_compute in Hx |- *;
      first [discriminate | reflexivity].
Qed.

Lemma split_single sep s :
  Py.contains_char sep s = false -> Py.split sep s = [s].
Proof.
  induction s as [| c r IH]; intros H; simpl in *; [reflexivity |].
  apply orb_false_elim in H as [Hc Hr]. rewrite Hc, (IH Hr). reflexivity.
Qed.

Lemma partition_head_contains sep x s :
  Py.contains_char x (Py.partition sep s).1.1 = true ->
  Py.contains_char x s = true.
Proof.
  induction s as [| c r IH]; simpl; [discriminate |].
  destruct (Ascii.eqb c sep); simpl; [discriminate |].
  destruct (Py.partition sep r) as [[a f] b]. simpl in *.
  intros H. apply orb_prop in H as [-> | H]; [reflexivity |].
  rewrite (IH H). apply orb_true_r.
Qed.

Lemma v6_int_needs_colon s ip :
  Ip.v6_int_from_string s = Some ip -> Py.contains_char ":" s = true.
Proof.
  intros H. destruct (Py.contains_char ":" s) eqn:Hc; [reflexivity |].
  unfold Ip.v6_int_from_string in H. rewrite (split_single _ _ Hc) in H.
  destruct s; discriminate.
Qed.

Lemma IPv6Address_needs_colon s r :
  Ip.IPv6Address s = Some r -> Py.contains_char ":" s = true.
Proof.
  unfold Ip.IPv6Address. intros H.
  destruct (Py.contains_char "/" s); [discriminate |].
  apply (partition_head_contains "%").
  destruct (Py.partition "%" s) as [[addr sep] scope_id]. simpl.
  destruct sep.
  - destruct scope_id; [discriminate |].
    destruct (Py.contains_char "%" _); [discriminate |].
    destruct (Ip.v6_int_from_string addr) eqn:Hv; [| discriminate].
    eauto using v6_int_needs_colon.
  - destruct (Ip.v6_int_from_string addr) eqn:Hv; [| discriminate].
    eauto using v6_int_needs_colon.
Qed.

(** X10: an IPv6 literal is never matched against the five blocks.  A
    URL whose host is an IPv6 literal is blocked exactly when the host
    is [::1]; every other IPv6 literal passes, also one that embeds a
    private or loopback IPv4 address. *)
Theorem ipv6_literal_blocked_iff url host ip scope_id :
  url_hostname url = Some host ->
  Ip.ip_address host = Some (Ip.V6 ip scope_id) ->
  _is_ssrf_blocked url = true <-> host = "::1".
Proof.
  intros Hh Hip. rewrite (guard_verdict url host Hh).
  assert (H6 : Py.contains_char ":" host = true).
  { unfold Ip.ip_address in Hip.
    destruct (Ip.IPv4Address host); [discriminate |].
    destruct (Ip.IPv6Address host) as [[? ?] |] eqn:H6; [| discriminate].
    eauto using IPv6Address_needs_colon. }
  assert (Hno : forall name,
            Py.contains_char ":" name = false -> Py.lower host <> name).
  { intros name Hname Heq.
    rewrite <- Heq, contains_char_lower in Hname by (vm_compute; reflexivity).
    congruence. }
  split.
  - intros [Hname | (ip' & Hip' & _)]; [| congruence].
    destruct Hname as [H | [H | [H | [H | H]]]].
    + exfalso. refine (Hno _ _ H). reflexivity.
    + exfalso. refine (Hno _ _ H). reflexivity.
    + exfalso. refine (Hno _ _ H). reflexivity.
    + apply lower_fixes; [reflexivity | exact H].
    + apply lower_fixes in H; [| reflexivity].
      subst host. vm_compute in Hip. discriminate.
  - intros ->. left. right. right. right. left. reflexivity.
Qed.

Lemma ipv6_literal_blocked_iff_witness :
  _is_ssrf_blocked "http://[::1]:8080/" = true
  /\ _is_ssrf_blocked "http://[::ffff:10.0.0.1]/" = false.
Proof.
  split.
  - apply (ipv6_literal_blocked_iff "http://[::1]:8080/" "::1" 1 None);
      vm_compute; reflexivity.
  - destruct (_is_ssrf_blocked "http://[::ffff:10.0.0.1]/") eqn:Hb;
      [| reflexivity].
    apply (ipv6_literal_blocked_iff "http://[::ffff:10.0.0.1]/"
             "::ffff:10.0.0.1" 281470849515521 None) in Hb;
      [discriminate | vm_compute; reflexivity | vm_compute; reflexivity].
Defined.

Lemma contains_char_lstrip x p s :
  Py.contains_char x s = false -> Py.contains_char x (Py.lstrip_by p s) = false.
Proof.
  induction s as [| c r IH]; intros H; simpl in *; [reflexivity |].
  apply orb_false_elim in H as [Hc Hr].
  destruct (p c); [auto |]. simpl. rewrite Hc, Hr. reflexivity.
Qed.

Lemma contains_char_filter x p s :
  Py.contains_char x s = false -> Py.contains_char x (Py.filter_chars p s) = false.
Proof.
  induction s as [| c r IH]; intros H; simpl in *; [reflexivity |].
  apply orb_false_elim in H as [Hc Hr].
  destruct (p c); [| auto]. simpl. rewrite Hc. auto.
Qed.

Lemma find_char_none x s :
  Py.contains_char x s = false -> Py.find_char x s = None.
Proof.
  induction s as [| c r IH]; intros H; simpl in *; [reflexivity |].
  apply orb_false_elim in H as [Hc Hr]. rewrite Hc, (IH Hr). reflexivity.
Qed.

Lemma hostless_not_blocked url parsed :
  Url.urlparse url = Some parsed -> Url.hostname parsed = None ->
  _is_ssrf_blocked url = false.
Proof.
  intros Hp Hh. unfold _is_ssrf_blocked. rewrite Hp, Hh. reflexivity.
Qed.

(** X11: the guard fails open on a URL without a host.  Whenever
    [urlparse] finds no hostname the URL passes, and so does every
    string with neither a colon nor a slash: handed a bare [localhost]
    or [127.0.0.1], the guard on its own blocks nothing. *)
Theorem hostless_url_passes :
  (forall url parsed,
     Url.urlparse url = Some parsed -> Url.hostname parsed = None ->
     _is_ssrf_blocked url = false)
  /\ (forall url,
        Py.contains_char ":" url = false -> Py.contains_char "/" url = false ->
        _is_ssrf_blocked url = false).
Proof.
  split; [exact hostless_not_blocked |].
  intros url Hcolon Hslash.
  apply (hostless_not_blocked url {| Url.scheme := EmptyString;
                                      Url.netloc := EmptyString |});
    [| reflexivity].
  unfold Url.urlparse.
  set (cleaned := Py.filter_chars _ (Py.lstrip_by _ url)).
  assert (Hc : Py.contains_char ":" cleaned = false)
    by (apply contains_char_filter, contains_char_lstrip, Hcolon).
  assert (Hs : Py.contains_char "/" cleaned = false)
    by (apply contains_char_filter, contains_char_lstrip, Hslash).
  unfold Url.split_scheme. rewrite (find_char_none _ _ Hc).
  destruct cleaned as [| c r]; [reflexivity |].
  simpl in Hs. apply orb_false_elim in Hs as [Hs _].
  assert (Hst : Py.startswith "//" (String c r) = false).
  { change (Ascii.eqb "/" c && Py.startswith "/" r = false).
    rewrite Ascii.eqb_sym, Hs. reflexivity. }
  cbv beta iota zeta. rewrite Hst. reflexivity.
Qed.

Lemma hostless_url_passes_witness :
  _is_ssrf_blocked "localhost" = false
  /\ _is_ssrf_blocked "file:///etc/passwd" = false.
Proof.
  destruct hostless_url_passes as [Hparsed Hbare]. split.
  - apply (Hbare "localhost"); reflexivity.
  - apply (Hparsed "file:///etc/passwd"
             {| Url.scheme := "file"; Url.netloc := EmptyString |});
      reflexivity.
Defined.

Lemma v4_int_needs_dot s ip :
  Ip.v4_int_from_string s = Some ip -> Py.contains_char "." s = true.
Proof.
  intros H. destruct (Py.contains_char "." s) eqn:Hc; [reflexivity |].
  unfold Ip.v4_int_from_string in H. rewrite (split_single _ _ Hc) in H.
  destruct s; discriminate.
Qed.

Lemma ip_address_v4_needs_dot host ip :
  Ip.ip_address host = Some (Ip.V4 ip) -> Py.contains_char "." host = true.
Proof.
  unfold Ip.ip_address, Ip.IPv4Address. intros H.
  destruct (Py.contains_char "/" host).
  - destruct (Ip.IPv6Address host) as [[? ?] |]; discriminate.
  - destruct (Ip.v4_int_from_string host) eqn:H4.
    + eauto using v4_int_needs_dot.
    + destruct (Ip.IPv6Address host) as [[? ?] |]; discriminate.
Qed.

(** X12: a host written without a dot and without a colon is blocked
    only under the name [localhost].  No other spelling of an address in
    one piece (a decimal or hexadecimal integer, a single [0]) is taken
    for an IP address by the guard. *)
Theorem dotless_host_blocked_iff url host :
  url_hostname url = Some host ->
  Py.contains_char "." host = false ->
  Py.contains_char ":" host = false ->
  _is_ssrf_blocked url = true <-> Py.lower host = "localhost".
Proof.
  intros Hh Hdot Hcolon. rewrite (guard_verdict url host Hh).
  assert (Hno : forall x name,
            Py.code x < 65 -> Py.contains_char x host = false ->
            Py.contains_char x name = true -> Py.lower host <> name).
  { intros x name Hx Hhost Hname Heq.
    rewrite <- Heq, contains_char_lower in Hname by exact Hx.
    congruence. }
  split.
  - intros [Hname | (ip & Hip & _)].
    + destruct Hname as [H | [H | [H | [H | H]]]]; [exact H | exfalso ..].
      * refine (Hno "."%char _ _ Hdot _ H); reflexivity.
      * refine (Hno "."%char _ _ Hdot _ H); reflexivity.
      * refine (Hno ":"%char _ _ Hcolon _ H); reflexivity.
      * refine (Hno ":"%char _ _ Hcolon _ H); reflexivity.
    + apply ip_address_v4_needs_dot in Hip. congruence.
  - intros H. left. left. exact H.
Qed.

Lemma dotless_host_blocked_iff_witness :
  _is_ssrf_blocked "http://LocalHost:8000/admin" = true
  /\ _is_ssrf_blocked "http://2130706433/" = false.
Proof.
  split.
  - apply (dotless_host_blocked_iff "http://LocalHost:8000/admin" "localhost");
      vm_compute; reflexivity.
  - destruct (_is_ssrf_blocked "http://2130706433/") eqn:Hb; [| reflexivity].
    apply (dotless_host_blocked_iff "http://2130706433/" "2130706433") in Hb;
      [discriminate | vm_compute; reflexivity ..].
Defined.

(** ** The three forms of a result *)

(** X13: every result of [fetch_webpage] has one of three forms, told
    apart by their first characters.  A result that starts with [Title: ]
    is a page that was requested in this call and is now in the cache
    under the normalised URL with the time of the store.  A result that
    starts with [(cached)] repeats a non-empty entry of the cache that is
    younger than the TTL; no request was made and the cache is as it
    was.  Every other result starts with [Error]. *)
Theorem fetch_result_forms env t_lookup t_store url max_chars
    (cache : gmap string (string * Q)) :
  let call := fetch_webpage env t_lookup t_store url max_chars cache in
  let target := normalize_url url in
  (Py.startswith "Title: " (returned call) = true
   /\ requested call = [target]
   /\ cache_after call !! target = Some (returned call, t_store))
  \/ (Py.startswith "(cached)" (returned call) = true
      /\ requested call = []
      /\ cache_after call = cache
      /\ exists content timestamp,
           cache !! target = Some (content, timestamp)
           /\ content <> EmptyString
           /\ (t_lookup - timestamp < inject_Z CACHE_TTL_SECONDS)%Q
           /\ returned call = "(cached)" ++ Py.LF ++ Py.LF ++ content)
  \/ (Py.startswith "Error" (returned call) = true
      /\ Py.startswith "Title: " (returned call) = false
      /\ Py.startswith "(cached)" (returned call) = false).
Proof.
  intros call target. subst call target. unfold fetch_webpage.
  destruct (requests_installed env); simpl negb; cbv iota;
    [| right; right; split; [reflexivity | split; reflexivity]].
  destruct (_is_ssrf_blocked (normalize_url url));
    [right; right; split; [reflexivity | split; reflexivity] |].
  destruct (_get_cached t_lookup (normalize_url url) cache)
    as [cached cache'] eqn:Hget.
  assert (Hhit : forall content, cached = Some content ->
            cache' = cache
            /\ exists timestamp,
                 cache !! normalize_url url = Some (content, timestamp)
                 /\ (t_lookup - timestamp < inject_Z CACHE_TTL_SECONDS)%Q).
  { intros content ->. unfold _get_cached in Hget.
    destruct (cache !! normalize_url url) as [[c ts] |]; [| discriminate].
    destruct (Qlt_bool _ _) eqn:Hq; [| discriminate].
    injection Hget as -> ->. apply Qlt_bool_iff, fresh_exact in Hq. eauto. }
  destruct cached as [[| c0 rest] |].
  2: { right. left. destruct (Hhit _ eq_refl) as (-> & ts & Hl & Hfresh).
       simpl. split; [reflexivity |]. split; [reflexivity |].
       split; [reflexivity |]. exists (String c0 rest), ts.
       split; [exact Hl |]. split; [discriminate |].
       split; [exact Hfresh | reflexivity]. }
  all: clear Hhit Hget;
    repeat case_match; simpl returned; simpl requested; simpl cache_after;
    first [ left; split; [reflexivity |];
            split; [reflexivity | apply lookup_insert_eq]
          | right; right; split; [reflexivity | split; reflexivity] ].
Qed.

(** ** The text extractor *)

Lemma append_nil_r (s : string) : s ++ EmptyString = s.
Proof.
  induction s as [| c r IH]; [reflexivity |].
  change (String c (r ++ EmptyString) = String c r). rewrite IH. reflexivity.
Qed.

Lemma rev_onto_app s acc : Py.rev_onto s acc = Py.rev s ++ acc.
Proof.
  unfold Py.rev. revert acc.
  induction s as [| c r IH]; intros acc; [reflexivity |].
  simpl. rewrite (IH (String c acc)), (IH (String c EmptyString)).
  rewrite append_assoc. reflexivity.
Qed.

Lemma rev_cons c r : Py.rev (String c r) = Py.rev r ++ String c EmptyString.
Proof. unfold Py.rev at 1. simpl. apply rev_onto_app. Qed.

Lemma rev_snoc y c : Py.rev (y ++ String c EmptyString) = String c (Py.rev y).
Proof.
  induction y as [| d y' IH]; [reflexivity |].
  change (Py.rev (String d (y' ++ String c EmptyString))
          = String c (Py.rev (String d y'))).
  rewrite !rev_cons, IH. reflexivity.
Qed.

Lemma rev_involutive s : Py.rev (Py.rev s) = s.
Proof.
  induction s as [| c r IH]; [reflexivity |].
  rewrite rev_cons, rev_snoc, IH. reflexivity.
Qed.

Lemma rev_app x y : Py.rev (x ++ y) = Py.rev y ++ Py.rev x.
Proof.
  induction x as [| c r IH].
  - change (Py.rev y = Py.rev y ++ EmptyString). rewrite append_nil_r.
    reflexivity.
  - change (Py.rev (String c (r ++ y)) = Py.rev y ++ Py.rev (String c r)).
    rewrite !rev_cons, IH, append_assoc. reflexivity.
Qed.

Lemma lstrip_head p s c r : Py.lstrip_by p s = String c r -> p c = false.
Proof.
  induction s as [| d s' IH]; simpl; [discriminate |].
  destruct (p d) eqn:Hd; [exact IH |].
  intros [= <- _]. exact Hd.
Qed.

Lemma lstrip_kept p c r : p c = false -> Py.lstrip_by p (String c r) = String c r.
Proof. intros H. simpl. rewrite H. reflexivity. Qed.

Lemma lstrip_idem p s : Py.lstrip_by p (Py.lstrip_by p s) = Py.lstrip_by p s.
Proof.
  destruct (Py.lstrip_by p s) as [| c r] eqn:H; [reflexivity |].
  apply lstrip_kept. eauto using lstrip_head.
Qed.

Lemma lstrip_suffix p s : exists w, s = w ++ Py.lstrip_by p s.
Proof.
  induction s as [| c r [w IH]]; [exists EmptyString; reflexivity |].
  simpl. destruct (p c).
  - exists (String c w). change (String c r = String c (w ++ Py.lstrip_by p r)).
    rewrite <- IH. reflexivity.
  - exists EmptyString. reflexivity.
Qed.

Lemma lstrip_snoc_keep p x c :
  p c = false ->
  Py.lstrip_by p (x ++ String c EmptyString)
  = Py.lstrip_by p x ++ String c EmptyString.
Proof.
  intros Hc. induction x as [| d x' IH].
  - change (Py.lstrip_by p (String c EmptyString) = String c EmptyString).
    apply lstrip_kept, Hc.
  - change (Py.lstrip_by p (String d (x' ++ String c EmptyString))
            = Py.lstrip_by p (String d x') ++ String c EmptyString).
    simpl. destruct (p d); [exact IH | reflexivity].
Qed.

Lemma rstrip_idem p s : Py.rstrip_by p (Py.rstrip_by p s) = Py.rstrip_by p s.
Proof.
  unfold Py.rstrip_by. rewrite rev_involutive, lstrip_idem. reflexivity.
Qed.

Lemma rstrip_prefix p s : exists w, s = Py.rstrip_by p s ++ w.
Proof.
  unfold Py.rstrip_by.
  destruct (lstrip_suffix p (Py.rev s)) as [w Hw].
  exists (Py.rev w).
  rewrite <- rev_app, <- Hw, rev_involutive. reflexivity.
Qed.

Lemma rstrip_keeps_head p c r :
  p c = false -> exists r', Py.rstrip_by p (String c r) = String c r'.
Proof.
  intros Hc. unfold Py.rstrip_by.
  rewrite rev_cons, (lstrip_snoc_keep _ _ _ Hc), rev_snoc. eauto.
Qed.

Lemma strip_idem s : Py.strip (Py.strip s) = Py.strip s.
Proof.
  unfold Py.strip.
  destruct (Py.lstrip_by Py.isspace s) as [| c r] eqn:Ha; [reflexivity |].
  pose proof (lstrip_head _ _ _ _ Ha) as Hc.
  destruct (rstrip_keeps_head Py.isspace c r Hc) as [r' Hr].
  rewrite Hr at 1. rewrite (lstrip_kept _ _ _ Hc), <- Hr.
  apply rstrip_idem.
Qed.

Lemma contains_char_app x a b :
  Py.contains_char x (a ++ b) = Py.contains_char x a || Py.contains_char x b.
Proof.
  induction a as [| c r IH]; [reflexivity |].
  change (Py.contains_char x (String c (r ++ b))
          = Py.contains_char x (String c r) || Py.contains_char x b).
  simpl. rewrite IH, orb_assoc. reflexivity.
Qed.

Lemma contains_char_rstrip x p s :
  Py.contains_char x s = false -> Py.contains_char x (Py.rstrip_by p s) = false.
Proof.
  intros H. destruct (rstrip_prefix p s) as [w Hw].
  rewrite Hw, contains_char_app in H. apply orb_false_elim in H as [H _].
  exact H.
Qed.

Lemma contains_char_strip x s :
  Py.contains_char x s = false -> Py.contains_char x (Py.strip s) = false.
Proof.
  intros H. apply contains_char_rstrip, contains_char_lstrip, H.
Qed.

Lemma split_no_sep sep s :
  Forall (fun part => Py.contains_char sep part = false) (Py.split sep s).
Proof.
  induction s as [| c r IH]; simpl.
  - repeat constructor.
  - destruct (Ascii.eqb c sep) eqn:Hc.
    + constructor; [reflexivity | exact IH].
    + destruct (Py.split sep r) as [| h t].
      * constructor; [| constructor]. simpl. rewrite Hc. reflexivity.
      * inversion IH as [| ? ? Hh Ht]; subst.
        constructor; [| exact Ht]. simpl. rewrite Hc, Hh. reflexivity.
Qed.

Lemma split_app_sep sep l t :
  Py.contains_char sep l = false ->
  Py.split sep (l ++ String sep t) = l :: Py.split sep t.
Proof.
  induction l as [| c r IH]; intros H.
  - change (Py.split sep (String sep t) = EmptyString :: Py.split sep t).
    simpl. rewrite Ascii.eqb_refl. reflexivity.
  - simpl in H. apply orb_false_elim in H as [Hc Hr].
    change (Py.split sep (String c (r ++ String sep t))
            = String c r :: Py.split sep t).
    simpl. rewrite Hc, (IH Hr). reflexivity.
Qed.

(** Lines of text: no line feed inside, and not empty. *)
Lemma split_join_lines sep lines :
  lines <> [] ->
  Forall (fun line => Py.contains_char sep line = false) lines ->
  Py.split sep (Py.join (String sep EmptyString) lines) = lines.
Proof.
  induction lines as [| l rest IH]; intros Hne Hall; [congruence |].
  inversion Hall as [| ? ? Hl Hrest]; subst.
  destruct rest as [| l2 rest'].
  - apply split_single, Hl.
  - change (Py.split sep (l ++ String sep (Py.join (String sep EmptyString) (l2 :: rest')))
            = l :: l2 :: rest').
    rewrite (split_app_sep _ _ _ Hl), IH by (congruence || assumption).
    reflexivity.
Qed.

Lemma collapse_line l t :
  Py.contains_char (ascii_of_N 10) l = false ->
  collapse_newlines O (l ++ t) = l ++ collapse_newlines O t.
Proof.
  induction l as [| c r IH]; intros H; [reflexivity |].
  cbn [Py.contains_char] in H. apply orb_false_elim in H as [Hc Hr].
  change ((if Ascii.eqb c (ascii_of_N 10)
           then collapse_newlines 1 (r ++ t)
           else String c (collapse_newlines O (r ++ t)))
          = String c (r ++ collapse_newlines O t)).
  rewrite Hc, (IH Hr). reflexivity.
Qed.

Lemma collapse_after_one c r :
  Ascii.eqb c (ascii_of_N 10) = false ->
  collapse_newlines O (String (ascii_of_N 10) (String c r))
  = String (ascii_of_N 10) (collapse_newlines O (String c r)).
Proof.
  intros Hc.
  change ((if Ascii.eqb c (ascii_of_N 10)
           then collapse_newlines 2 r
           else Py.LF ++ String c (collapse_newlines O r))
          = String (ascii_of_N 10)
              (if Ascii.eqb c (ascii_of_N 10)
               then collapse_newlines 1 r
               else String c (collapse_newlines O r))).
  rewrite Hc. reflexivity.
Qed.

Lemma join_head sep c r rest :
  exists tail, Py.join sep (String c r :: rest) = String c tail.
Proof. destruct rest; simpl; eauto. Qed.

Lemma collapse_join_lines lines :
  Forall (fun line => line <> EmptyString
                      /\ Py.contains_char (ascii_of_N 10) line = false) lines ->
  collapse_newlines O (Py.join Py.LF lines) = Py.join Py.LF lines.
Proof.
  induction lines as [| l rest IH]; intros Hall; [reflexivity |].
  inversion Hall as [| ? ? [Hne Hl] Hrest]; subst.
  destruct rest as [| l2 rest'].
  - simpl. rewrite <- (append_nil_r l) at 1.
    rewrite (collapse_line _ _ Hl). apply append_nil_r.
  - change (collapse_newlines O (l ++ Py.LF ++ Py.join Py.LF (l2 :: rest'))
            = l ++ Py.LF ++ Py.join Py.LF (l2 :: rest')).
    rewrite (collapse_line _ _ Hl). f_equal.
    specialize (IH Hrest).
    inversion Hrest as [| ? ? [Hne2 Hl2] _]; subst.
    destruct l2 as [| d l2']; [congruence |].
    destruct (join_head Py.LF d l2' rest') as [tail Htail].
    rewrite Htail in *.
    cbn [Py.contains_char] in Hl2. apply orb_false_elim in Hl2 as [Hd _].
    change (Py.LF ++ String d tail) with (String (ascii_of_N 10) (String d tail)).
    rewrite (collapse_after_one _ _ Hd), IH. reflexivity.
Qed.

(** X14: with BeautifulSoup, the text that is returned has no empty
    line and no line that starts or ends with white space.  It is the
    stripped non-blank lines of the parser's text joined by single line
    feeds, so the substitution of runs of three line feeds, which comes
    last, never changes anything. *)
Theorem extract_text_lines env soup html raw :
  bs4 env = Some soup ->
  body_text soup html = Ok raw ->
  let lines :=
    List.map Py.strip
      (List.filter (fun line => nonempty (Py.strip line))
         (Py.split (ascii_of_N 10) raw)) in
  exists text,
    _extract_text env html = Ok text
    /\ text = Py.join Py.LF lines
    /\ (text = EmptyString
        \/ (Py.split (ascii_of_N 10) text = lines
            /\ Forall (fun line => line <> EmptyString /\ Py.strip line = line)
                 (Py.split (ascii_of_N 10) text))).
Proof.
  intros Hsoup Hraw lines.
  assert (Hlines : Forall (fun line =>
                     (line <> EmptyString /\ Py.strip line = line)
                     /\ Py.contains_char (ascii_of_N 10) line = false) lines).
  { subst lines. apply Forall_forall. intros line Hin.
    apply list_elem_of_In, in_map_iff in Hin as (l0 & <- & Hin).
    apply filter_In in Hin as [Hin Hne].
    split; [split |].
    - intros Heq. rewrite Heq in Hne. discriminate.
    - apply strip_idem.
    - apply contains_char_strip.
      pose proof (split_no_sep (ascii_of_N 10) raw) as Hall.
      rewrite Forall_forall in Hall. apply Hall, list_elem_of_In, Hin. }
  exists (Py.join Py.LF lines). split; [| split; [reflexivity |]].
  - unfold _extract_text. rewrite Hsoup, Hraw. fold lines. f_equal.
    apply collapse_join_lines.
    eapply Forall_impl; [exact Hlines |]. intros line; simpl; tauto.
  - destruct lines as [| l rest] eqn:Hl; [left; reflexivity |].
    right. rewrite <- Hl in *.
    assert (Hsplit : Py.split (ascii_of_N 10) (Py.join Py.LF lines) = lines).
    { apply split_join_lines; [rewrite Hl; discriminate |].
      eapply Forall_impl; [exact Hlines |]. intros line; simpl; tauto. }
    rewrite Hsplit. split; [reflexivity |].
    eapply Forall_impl; [exact Hlines |]. intros line; simpl; tauto.
Qed.

Lemma extract_text_lines_witness :
  let soup := {| title_text := fun _ => Ok (Some "T");
                 body_text := fun html => Ok html |} in
  let LF := Py.LF in
  _extract_text (env_with Timeout (Some soup))
    ("  first " ++ LF ++ LF ++ LF ++ LF ++ "   " ++ LF ++ "second  ")
  = Ok ("first" ++ LF ++ "second").
Proof.
  intros soup LF.
  destruct (extract_text_lines (env_with Timeout (Some soup)) soup
              ("  first " ++ LF ++ LF ++ LF ++ LF ++ "   " ++ LF ++ "second  ")
              ("  first " ++ LF ++ LF ++ LF ++ LF ++ "   " ++ LF ++ "second  ")
              eq_refl eq_refl) as (text & -> & -> & _).
  vm_compute. reflexivity.
Defined.

(** *** The fallback without BeautifulSoup *)

Lemma from_length p s : (String.length (Py.from p s) <= String.length s)%nat.
Proof.
  induction s as [| c r IH]; simpl; [lia |].
  destruct (p c); simpl; lia.
Qed.

Lemma from_head p s d r : Py.from p s = String d r -> p d = true.
Proof.
  induction s as [| c s' IH]; simpl; [discriminate |].
  destruct (p c) eqn:Hc; [| exact IH].
  intros [= <- _]. exact Hc.
Qed.

(** Skipping the characters a match has consumed. *)
Lemma re_sub_skip match_at repl p s :
  re_sub match_at repl (String.length s - String.length (Py.from p s))%nat s
  = re_sub match_at repl O (Py.from p s).
Proof.
  induction s as [| c r IH]; [reflexivity |].
  cbn [Py.from]. destruct (p c).
  - rewrite Nat.sub_diag. reflexivity.
  - pose proof (from_length p r) as Hlen.
    cbn [String.length].
    replace (S (String.length r) - String.length (Py.from p r))%nat
      with (S (String.length r - String.length (Py.from p r))) by lia.
    exact IH.
Qed.

Lemma space_match_at_cons c r :
  space_match_at (String c r)
  = if Py.isspace c
    then Some (Py.from (fun c => negb (Py.isspace c)) r)
    else None.
Proof.
  unfold space_match_at. cbn [Py.until Py.from].
  destruct (Py.isspace c); reflexivity.
Qed.

Lemma collapse_spaces_cons c r :
  re_sub space_match_at " " O (String c r)
  = if Py.isspace c
    then String " " (re_sub space_match_at " " O
                       (Py.from (fun c => negb (Py.isspace c)) r))
    else String c (re_sub space_match_at " " O r).
Proof.
  cbn [re_sub]. rewrite space_match_at_cons.
  destruct (Py.isspace c); [| reflexivity].
  rewrite re_sub_skip. reflexivity.
Qed.

Lemma collapse_spaces_single_spaced s :
  single_spaced false (re_sub space_match_at " " O s) = true.
Proof.
  remember (String.length s) as n eqn:Hn.
  revert s Hn. induction n as [n IH] using lt_wf_ind. intros s Hn.
  destruct s as [| c r]; [reflexivity |].
  rewrite collapse_spaces_cons. cbn [String.length] in Hn.
  destruct (Py.isspace c) eqn:Hc.
  - cbn [single_spaced].
    change (Py.isspace " ") with true. cbv iota.
    change (Ascii.eqb " " " " && negb false) with true. cbn [andb].
    destruct (Py.from (fun c => negb (Py.isspace c)) r) as [| d r'] eqn:Hfrom;
      [reflexivity |].
    pose proof (from_head _ _ _ _ Hfrom) as Hd.
    apply negb_true_iff in Hd.
    pose proof (from_length (fun c => negb (Py.isspace c)) r) as Hlen.
    rewrite Hfrom in Hlen. cbn [String.length] in Hlen.
    rewrite collapse_spaces_cons, Hd. cbn [single_spaced]. rewrite Hd.
    apply (IH (String.length r')); [lia | reflexivity].
  - cbn [single_spaced]. rewrite Hc.
    apply (IH (String.length r)); [lia | reflexivity].
Qed.

Lemma single_spaced_lstrip b s :
  single_spaced b s = true ->
  single_spaced true (Py.lstrip_by Py.isspace s) = true.
Proof.
  revert b. induction s as [| c r IH]; intros b H; [reflexivity |].
  cbn [Py.lstrip_by]. cbn [single_spaced] in H.
  destruct (Py.isspace c) eqn:Hc.
  - apply andb_prop in H as [_ H]. exact (IH _ H).
  - cbn [single_spaced]. rewrite Hc. exact H.
Qed.

Lemma single_spaced_prefix b x y :
  single_spaced b (x ++ y) = true -> single_spaced b x = true.
Proof.
  revert b. induction x as [| c r IH]; intros b H; [reflexivity |].
  change (single_spaced b (String c (r ++ y)) = true) in H.
  cbn [single_spaced] in H |- *.
  destruct (Py.isspace c).
  - apply andb_prop in H as [H1 H2]. rewrite H1, (IH _ H2). reflexivity.
  - exact (IH _ H).
Qed.

Lemma single_spaced_strip b s :
  single_spaced b s = true -> single_spaced true (Py.strip s) = true.
Proof.
  intros H. apply single_spaced_lstrip in H. unfold Py.strip.
  destruct (rstrip_prefix Py.isspace (Py.lstrip_by Py.isspace s)) as [w Hw].
  rewrite Hw in H. exact (single_spaced_prefix _ _ _ H).
Qed.

(** X15: without BeautifulSoup, the text that is returned is
    normalised in its white space: the only white-space character left
    is the space, no two spaces are adjacent, and the text neither starts
    nor ends with one. *)
Theorem extract_text_fallback_spacing env html :
  bs4 env = None ->
  exists text,
    _extract_text env html = Ok text
    /\ single_spaced true text = true
    /\ Py.strip text = text.
Proof.
  intros Hsoup. unfold _extract_text. rewrite Hsoup.
  eexists. split; [reflexivity |]. split.
  - eapply single_spaced_strip, collapse_spaces_single_spaced.
  - apply strip_idem.
Qed.

Lemma extract_text_fallback_spacing_witness :
  let LF := Py.LF in
  exists text,
    _extract_text env_bare
      (" <p>one" ++ LF ++ LF ++ "  two </p>" ++ LF ++ "<b>three</b> ")
    = Ok text
    /\ single_spaced true text = true
    /\ Py.strip text = text.
Proof.
  intros LF.
  apply (extract_text_fallback_spacing env_bare
           (" <p>one" ++ LF ++ LF ++ "  two </p>" ++ LF ++ "<b>three</b> ")).
  reflexivity.
Defined.

Lemma tag_match_at_eq c r :
  tag_match_at (String c r)
  = if Ascii.eqb c "<"
    then match Py.until is_gt r, Py.from is_gt r with
         | String _ _, String _ rest => Some rest
         | _, _ => None
         end
    else None.
Proof. destruct c as [[] [] [] [] [] [] [] []]; reflexivity. Qed.

Lemma from_gt_empty s :
  Py.from is_gt s = EmptyString <-> Py.contains_char ">" s = false.
Proof.
  induction s as [| c r IH]; [split; reflexivity |].
  cbn [Py.from Py.contains_char]. unfold is_gt at 1.
  destruct (Ascii.eqb c ">"); [split; discriminate | exact IH].
Qed.

Lemma tag_match_at_none c r :
  tag_match_at (String c r) = None
  <-> Ascii.eqb c "<" = false
      \/ Py.until is_gt r = EmptyString
      \/ Py.contains_char ">" r = false.
Proof.
  rewrite tag_match_at_eq.
  destruct (Ascii.eqb c "<"); [| split; auto].
  destruct (Py.until is_gt r) eqn:Hu; [split; auto |].
  destruct (Py.from is_gt r) eqn:Hf.
  - apply from_gt_empty in Hf. split; auto.
  - split; [discriminate |].
    intros [H | [H | H]]; try discriminate.
    apply from_gt_empty in H. congruence.
Qed.

Lemma has_tag_cons c r :
  has_tag (String c r) = false
  <-> tag_match_at (String c r) = None /\ has_tag r = false.
Proof.
  change (has_tag (String c r))
    with (match tag_match_at (String c r) with
          | Some _ => true
          | None => has_tag r
          end).
  destruct (tag_match_at (String c r)).
  - split; [discriminate | intros [H _]; discriminate H].
  - split; [intros H; split; [reflexivity | exact H] | intros [_ H]; exact H].
Qed.

Lemma re_sub_keeps match_at repl c r :
  match_at (String c r) = None ->
  re_sub match_at repl O (String c r) = String c (re_sub match_at repl O r).
Proof. intros H. cbn [re_sub]. rewrite H. reflexivity. Qed.

(** A substitution puts nothing into the text but the replacement. *)
Lemma contains_char_re_sub x match_at repl skip s :
  Py.contains_char x repl = false ->
  Py.contains_char x s = false ->
  Py.contains_char x (re_sub match_at repl skip s) = false.
Proof.
  intros Hrepl. revert skip.
  induction s as [| c r IH]; intros skip Hs; [reflexivity |].
  cbn [Py.contains_char] in Hs. apply orb_false_elim in Hs as [Hc Hr].
  cbn [re_sub]. destruct skip as [| k]; [| exact (IH _ Hr)].
  destruct (match_at (String c r)).
  - rewrite contains_char_app, Hrepl, (IH _ Hr). reflexivity.
  - cbn [Py.contains_char]. rewrite Hc, (IH _ Hr). reflexivity.
Qed.

Lemma until_gt_re_sub match_at repl r :
  (forall r', match_at (String ">" r') = None) ->
  Py.until is_gt r = EmptyString ->
  Py.until is_gt (re_sub match_at repl O r) = EmptyString.
Proof.
  intros Hm. destruct r as [| c r']; [reflexivity |].
  cbn [Py.until]. destruct (is_gt c) eqn:Hc; [| discriminate].
  intros _. unfold is_gt in Hc. apply Ascii.eqb_eq in Hc. subst c.
  rewrite (re_sub_keeps _ _ _ _ (Hm r')). reflexivity.
Qed.

Lemma tag_none_re_sub match_at c r :
  (forall r', match_at (String ">" r') = None) ->
  tag_match_at (String c r) = None ->
  tag_match_at (String c (re_sub match_at " " O r)) = None.
Proof.
  intros Hm H. apply tag_match_at_none. apply tag_match_at_none in H.
  destruct H as [H | [H | H]]; [auto | |].
  - right. left. apply until_gt_re_sub; assumption.
  - right. right. apply contains_char_re_sub; [reflexivity | exact H].
Qed.

Lemma has_tag_space x : has_tag (String " " x) = has_tag x.
Proof. reflexivity. Qed.

Lemma tags_all_replaced skip s : has_tag (re_sub tag_match_at " " skip s) = false.
Proof.
  revert skip. induction s as [| c r IH]; intros skip; [reflexivity |].
  cbn [re_sub]. destruct skip as [| k]; [| apply IH].
  destruct (tag_match_at (String c r)) eqn:Hm.
  - change (has_tag (String " " (re_sub tag_match_at " "
              (String.length r - String.length s) r)) = false).
    rewrite has_tag_space. apply IH.
  - apply has_tag_cons. split; [| apply IH].
    apply tag_none_re_sub; [reflexivity | exact Hm].
Qed.

Lemma space_match_at_gt r : space_match_at (String ">" r) = None.
Proof. reflexivity. Qed.

Lemma collapse_spaces_no_tag skip s :
  has_tag s = false -> has_tag (re_sub space_match_at " " skip s) = false.
Proof.
  revert skip. induction s as [| c r IH]; intros skip H; [reflexivity |].
  apply has_tag_cons in H as [Hm Hr].
  cbn [re_sub]. destruct skip as [| k]; [| exact (IH _ Hr)].
  destruct (space_match_at (String c r)) eqn:Hsp.
  - change (has_tag (String " " (re_sub space_match_at " "
              (String.length r - String.length s) r)) = false).
    rewrite has_tag_space. exact (IH _ Hr).
  - apply has_tag_cons. split; [| exact (IH _ Hr)].
    apply tag_none_re_sub; [exact space_match_at_gt | exact Hm].
Qed.

Lemma has_tag_suffix w x : has_tag (w ++ x) = false -> has_tag x = false.
Proof.
  induction w as [| c r IH]; intros H; [exact H |].
  change (has_tag (String c (r ++ x)) = false) in H.
  apply has_tag_cons in H as [_ H]. exact (IH H).
Qed.

Lemma until_app_nonempty p r w :
  Py.until p (r ++ w) = EmptyString -> Py.until p r = EmptyString.
Proof.
  destruct r as [| c r']; [reflexivity |].
  change (Py.until p (String c (r' ++ w)) = EmptyString
          -> Py.until p (String c r') = EmptyString).
  cbn [Py.until]. destruct (p c); [reflexivity | discriminate].
Qed.

Lemma has_tag_prefix x w : has_tag (x ++ w) = false -> has_tag x = false.
Proof.
  induction x as [| c r IH]; intros H; [reflexivity |].
  change (has_tag (String c (r ++ w)) = false) in H.
  apply has_tag_cons in H as [Hm H]. apply has_tag_cons.
  split; [| exact (IH H)].
  apply tag_match_at_none. apply tag_match_at_none in Hm.
  destruct Hm as [Hm | [Hm | Hm]]; [auto | |].
  - right. left. exact (until_app_nonempty _ _ _ Hm).
  - right. right. rewrite contains_char_app in Hm.
    apply orb_false_elim in Hm as [Hm _]. exact Hm.
Qed.

Lemma strip_no_tag s : has_tag s = false -> has_tag (Py.strip s) = false.
Proof.
  intros H. unfold Py.strip.
  destruct (lstrip_suffix Py.isspace s) as [w Hw].
  rewrite Hw in H. apply has_tag_suffix in H.
  destruct (rstrip_prefix Py.isspace (Py.lstrip_by Py.isspace s)) as [w' Hw'].
  rewrite Hw' in H. exact (has_tag_prefix _ _ H).
Qed.

(** X16: without BeautifulSoup, no tag is left in the text that is
    returned: the pattern [<[^>]+>] that the third substitution replaces
    matches nowhere in the result, whatever the markup. *)
Theorem extract_text_fallback_no_tag env html :
  bs4 env = None ->
  exists text, _extract_text env html = Ok text /\ has_tag text = false.
Proof.
  intros Hsoup. unfold _extract_text. rewrite Hsoup.
  eexists. split; [reflexivity |].
  apply strip_no_tag, collapse_spaces_no_tag, tags_all_replaced.
Qed.

Lemma extract_text_fallback_no_tag_witness :
  exists text,
    _extract_text env_bare "<<a>b<>c< d>e<f" = Ok text
    /\ has_tag text = false.
Proof.
  apply (extract_text_fallback_no_tag env_bare "<<a>b<>c< d>e<f").
  reflexivity.
Defined.

(** *** The title without BeautifulSoup *)

Lemma until_lt_no_lt s : Py.contains_char "<" (Py.until is_lt s) = false.
Proof.
  induction s as [| c r IH]; [reflexivity |].
  cbn [Py.until]. unfold is_lt at 1.
  destruct (Ascii.eqb c "<") eqn:Hc; [reflexivity |].
  cbn [Py.contains_char]. rewrite Hc, IH. reflexivity.
Qed.

Lemma title_match_at_group s group :
  title_match_at s = Some group ->
  group <> EmptyString /\ Py.contains_char "<" group = false.
Proof.
  unfold title_match_at.
  destruct (strip_prefix_ci "<title" s) as [after_name |];
    cbn [mbind option_bind]; [| discriminate].
  destruct (Py.from is_gt after_name) as [| g inner]; [discriminate |].
  pose proof (until_lt_no_lt inner) as Hno.
  destruct (Py.until is_lt inner) as [| c r]; [discriminate |].
  destruct (strip_prefix_ci "</title>" (Py.from is_lt inner));
    [| discriminate].
  intros [= <-]. split; [discriminate | exact Hno].
Qed.

Lemma title_search_group html group :
  title_search html = Some group ->
  group <> EmptyString /\ Py.contains_char "<" group = false.
Proof.
  induction html as [| c r IH].
  - change (title_search EmptyString) with (@None string). discriminate.
  - change (title_search (String c r))
      with (match title_match_at (String c r) with
            | Some group => Some group
            | None => title_search r
            end).
    destruct (title_match_at (String c r)) as [g |] eqn:Hm; [| exact IH].
    intros [= <-]. exact (title_match_at_group _ _ Hm).
Qed.

(** X17: without BeautifulSoup (or when it raises), the title that is
    returned holds no [<] and has no white space at either end.  It is
    empty only for a title element made of white space; a page without
    a usable title element gives [(no title)]. *)
Theorem fallback_title_clean env markup :
  uses_fallback env markup ->
  Py.contains_char "<" (_get_title env markup) = false
  /\ Py.strip (_get_title env markup) = _get_title env markup
  /\ (_get_title env markup = EmptyString ->
      exists group, title_search markup = Some group
                    /\ group <> EmptyString
                    /\ Py.all_chars Py.isspace group = true).
Proof.
  intros Hf. rewrite (get_title_fallback env markup Hf).
  unfold _get_title_fallback.
  destruct (title_search markup) as [group |] eqn:Hs.
  - destruct (title_search_group _ _ Hs) as [Hne Hlt].
    split; [apply contains_char_strip, Hlt |].
    split; [apply strip_idem |].
    intros Hempty. exists group. split; [reflexivity |].
    split; [exact Hne |].
    clear -Hempty. unfold Py.strip in Hempty.
    assert (Hl : Py.lstrip_by Py.isspace group = EmptyString).
    { destruct (Py.lstrip_by Py.isspace group) as [| c r] eqn:Hl;
        [reflexivity |].
      pose proof (lstrip_head _ _ _ _ Hl) as Hc.
      destruct (rstrip_keeps_head Py.isspace c r Hc) as [r' Hr].
      rewrite Hr in Hempty. discriminate. }
    clear Hempty. induction group as [| c r IH]; [reflexivity |].
    cbn [Py.lstrip_by] in Hl. cbn [Py.all_chars].
    destruct (Py.isspace c); [exact (IH Hl) | discriminate].
  - split; [reflexivity |]. split; [reflexivity | discriminate].
Qed.

Lemma fallback_title_clean_witness :
  Py.contains_char "<" (_get_title env_bare "<TITLE lang=en>  A &lt; B </Title>") = false
  /\ Py.strip (_get_title env_bare "<TITLE lang=en>  A &lt; B </Title>")
     = _get_title env_bare "<TITLE lang=en>  A &lt; B </Title>".
Proof.
  destruct (fallback_title_clean env_bare "<TITLE lang=en>  A &lt; B </Title>")
    as (H1 & H2 & _); [left; reflexivity |].
  split; [exact H1 | exact H2].
Defined.

(** ** The guard and the shape of a URL *)

Lemma plain_char_code c : plain_char c = true -> 32 < Py.code c.
Proof.
  unfold plain_char. intros H. apply andb_prop in H as [H _].
  apply Z.ltb_lt in H. exact H.
Qed.

Lemma plain_char_not x c :
  Py.contains_char x "/?#@:[]%" = true -> plain_char c = true ->
  Ascii.eqb c x = false.
Proof.
  unfold plain_char. intros Hx H. apply andb_prop in H as [_ H].
  apply negb_true_iff in H.
  destruct (Ascii.eqb_spec c x) as [-> | _]; [congruence | reflexivity].
Qed.

Lemma plain_no x s :
  Py.contains_char x "/?#@:[]%" = true ->
  Py.all_chars plain_char s = true ->
  Py.contains_char x s = false.
Proof.
  intros Hx. induction s as [| c r IH]; intros H; [reflexivity |].
  cbn [Py.all_chars] in H. apply andb_prop in H as [Hc Hr].
  cbn [Py.contains_char]. rewrite (plain_char_not x c Hx Hc), (IH Hr).
  reflexivity.
Qed.

Lemma filter_chars_app p a b :
  Py.filter_chars p (a ++ b) = Py.filter_chars p a ++ Py.filter_chars p b.
Proof.
  induction a as [| c r IH]; [reflexivity |].
  change (Py.filter_chars p (String c (r ++ b))
          = Py.filter_chars p (String c r) ++ Py.filter_chars p b).
  cbn [Py.filter_chars]. destruct (p c); rewrite IH; reflexivity.
Qed.

Lemma filter_chars_all p s :
  Py.all_chars p s = true -> Py.filter_chars p s = s.
Proof.
  induction s as [| c r IH]; intros H; [reflexivity |].
  cbn [Py.all_chars] in H. apply andb_prop in H as [Hc Hr].
  cbn [Py.filter_chars]. rewrite Hc, (IH Hr). reflexivity.
Qed.

Lemma all_chars_app p a b :
  Py.all_chars p (a ++ b) = Py.all_chars p a && Py.all_chars p b.
Proof.
  induction a as [| c r IH]; [reflexivity |].
  change (Py.all_chars p (String c (r ++ b))
          = Py.all_chars p (String c r) && Py.all_chars p b).
  cbn [Py.all_chars]. rewrite IH, andb_assoc. reflexivity.
Qed.

Lemma all_chars_impl (p q : ascii -> bool) s :
  (forall c, p c = true -> q c = true) ->
  Py.all_chars p s = true -> Py.all_chars q s = true.
Proof.
  intros Hpq. induction s as [| c r IH]; intros H; [reflexivity |].
  cbn [Py.all_chars] in *. apply andb_prop in H as [Hc Hr].
  rewrite (Hpq _ Hc), (IH Hr). reflexivity.
Qed.

Lemma until_app_stop stop a t :
  Py.all_chars (fun c => negb (stop c)) a = true ->
  match t with EmptyString => True | String c _ => stop c = true end ->
  Py.until stop (a ++ t) = a.
Proof.
  intros Ha Ht. induction a as [| c r IH].
  - change (Py.until stop t = EmptyString).
    destruct t as [| c r]; [reflexivity |]. cbn [Py.until]. rewrite Ht.
    reflexivity.
  - cbn [Py.all_chars] in Ha. apply andb_prop in Ha as [Hc Hr].
    apply negb_true_iff in Hc.
    change (Py.until stop (String c (r ++ t)) = String c r).
    cbn [Py.until]. rewrite Hc, (IH Hr). reflexivity.
Qed.

Lemma partition_not_found sep s :
  Py.contains_char sep s = false ->
  Py.partition sep s = (s, false, EmptyString).
Proof.
  induction s as [| c r IH]; intros H; [reflexivity |].
  cbn [Py.contains_char] in H. apply orb_false_elim in H as [Hc Hr].
  cbn [Py.partition]. rewrite Hc, (IH Hr). reflexivity.
Qed.

Lemma partition_app_found sep a b :
  Py.contains_char sep a = false ->
  Py.partition sep (a ++ String sep b) = (a, true, b).
Proof.
  induction a as [| c r IH]; intros H.
  - change (Py.partition sep (String sep b) = (EmptyString, true, b)).
    cbn [Py.partition]. rewrite Ascii.eqb_refl. reflexivity.
  - cbn [Py.contains_char] in H. apply orb_false_elim in H as [Hc Hr].
    change (Py.partition sep (String c (r ++ String sep b))
            = (String c r, true, b)).
    cbn [Py.partition]. rewrite Hc, (IH Hr). reflexivity.
Qed.

Lemma after_last_none sep s :
  Py.contains_char sep s = false -> Py.after_last sep s = None.
Proof.
  induction s as [| c r IH]; intros H; [reflexivity |].
  cbn [Py.contains_char] in H. apply orb_false_elim in H as [Hc Hr].
  cbn [Py.after_last]. rewrite (IH Hr), Hc. reflexivity.
Qed.

(** The host and the optional port, as they stand in a URL. *)
Lemma authority_no x host port_part :
  Py.contains_char x "/?#@[]%" = true ->
  Py.all_chars plain_char host = true ->
  (port_part = EmptyString
   \/ exists port, port_part = ":" ++ port
                   /\ Py.all_chars plain_char port = true) ->
  Py.contains_char x (host ++ port_part) = false.
Proof.
  intros Hx Hhost Hport.
  assert (Hx' : Py.contains_char x "/?#@:[]%" = true).
  { simpl in Hx |- *.
    repeat (apply orb_prop in Hx as [Hx | Hx]; [rewrite Hx, ?orb_true_r; reflexivity |]).
    discriminate. }
  assert (Hcolon : Ascii.eqb ":" x = false).
  { destruct (Ascii.eqb_spec ":" x) as [<- | _]; [discriminate | reflexivity]. }
  rewrite contains_char_app, (plain_no x host Hx' Hhost).
  destruct Hport as [-> | (port & -> & Hp)]; [reflexivity |].
  change (":" ++ port) with (String ":" port).
  cbn [Py.contains_char orb]. rewrite Hcolon, (plain_no x port Hx' Hp).
  reflexivity.
Qed.

Lemma authority_hostinfo host port_part :
  Py.all_chars plain_char host = true ->
  (port_part = EmptyString
   \/ exists port, port_part = ":" ++ port
                   /\ Py.all_chars plain_char port = true) ->
  Url._hostinfo_0 (host ++ port_part) = host.
Proof.
  intros Hhost Hport. unfold Url._hostinfo_0, Py.rpartition_2.
  rewrite after_last_none
    by (apply authority_no; [reflexivity | assumption ..]).
  rewrite (partition_not_found "[")
    by (apply authority_no; [reflexivity | assumption ..]).
  assert (Hnc : Py.contains_char ":" host = false)
    by (apply plain_no; [reflexivity | assumption]).
  destruct Hport as [-> | (port & -> & Hp)].
  - rewrite append_nil_r, (partition_not_found ":" host Hnc). reflexivity.
  - change (":" ++ port) with (String ":" port).
    rewrite (partition_app_found ":" host port Hnc). reflexivity.
Qed.

Lemma plain_char_safe c :
  plain_char c = true -> negb (Url.unsafe_byte c) = true.
Proof.
  intros H. apply plain_char_code in H. unfold Url.unsafe_byte.
  apply negb_true_iff.
  destruct (Z.eqb_spec (Py.code c) 9); [lia |].
  destruct (Z.eqb_spec (Py.code c) 13); [lia |].
  destruct (Z.eqb_spec (Py.code c) 10); [lia | reflexivity].
Qed.

Lemma authority_chars (q : ascii -> bool) host port_part :
  (forall c, plain_char c = true -> q c = true) ->
  q ":"%char = true ->
  Py.all_chars plain_char host = true ->
  (port_part = EmptyString
   \/ exists port, port_part = ":" ++ port
                   /\ Py.all_chars plain_char port = true) ->
  Py.all_chars q (host ++ port_part) = true.
Proof.
  intros Hq Hcolon Hhost Hport.
  rewrite all_chars_app, (all_chars_impl _ _ _ Hq Hhost).
  destruct Hport as [-> | (port & -> & Hp)]; [reflexivity |].
  change (":" ++ port) with (String ":" port).
  cbn [Py.all_chars andb]. rewrite Hcolon, (all_chars_impl _ _ _ Hq Hp).
  reflexivity.
Qed.

Lemma filter_tail tail :
  url_tail tail ->
  url_tail (Py.filter_chars (fun c => negb (Url.unsafe_byte c)) tail).
Proof.
  destruct tail as [| c r]; [exact id |].
  unfold url_tail. intros Hc. cbn [Py.filter_chars].
  assert (Hs : negb (Url.unsafe_byte c) = true).
  { unfold Url.netloc_delim in Hc. cbn [Py.contains_char] in Hc.
    repeat (apply orb_prop in Hc as [Hc | Hc];
            [apply Ascii.eqb_eq in Hc; subst c; reflexivity |]).
    discriminate Hc. }
  rewrite Hs. exact Hc.
Qed.

Lemma drop_0 s : Py.drop 0 s = s.
Proof. destruct s; reflexivity. Qed.

(** What [urlparse] makes of [http(s)://host[:port]tail]. *)
Lemma urlparse_plain prefix host port_part tail :
  prefix = "http://" \/ prefix = "https://" ->
  Py.all_chars plain_char host = true ->
  (port_part = EmptyString
   \/ exists port, port_part = ":" ++ port
                   /\ Py.all_chars plain_char port = true) ->
  url_tail tail ->
  exists scheme,
    Url.urlparse (prefix ++ host ++ port_part ++ tail)
    = Some {| Url.scheme := scheme; Url.netloc := host ++ port_part |}.
Proof.
  intros Hprefix Hhost Hport Htail.
  set (safe := fun c => negb (Url.unsafe_byte c)).
  set (tail' := Py.filter_chars safe tail).
  assert (Hfilter : forall p, Py.filter_chars safe p = p ->
            Py.filter_chars safe (p ++ host ++ port_part ++ tail)
            = p ++ (host ++ port_part) ++ tail').
  { intros p Hp. rewrite filter_chars_app, Hp. f_equal.
    rewrite <- append_assoc, filter_chars_app. f_equal.
    apply filter_chars_all, authority_chars; try assumption.
    - exact plain_char_safe.
    - reflexivity. }
  assert (Hnetloc : Py.until Url.netloc_delim ((host ++ port_part) ++ tail')
                    = host ++ port_part).
  { apply until_app_stop.
    - apply authority_chars; try assumption; [| reflexivity].
      intros c Hc. apply negb_true_iff. unfold Url.netloc_delim.
      destruct (Py.contains_char c "/?#") eqn:Hd; [| reflexivity].
      exfalso. cbn [Py.contains_char] in Hd.
      repeat (apply orb_prop in Hd as [Hd | Hd];
              [apply Ascii.eqb_eq in Hd; subst c; discriminate Hc |]).
      discriminate Hd.
    - exact (filter_tail tail Htail). }
  assert (Hopen : Py.contains_char "[" (host ++ port_part) = false)
    by (apply authority_no; [reflexivity | assumption ..]).
  assert (Hclose : Py.contains_char "]" (host ++ port_part) = false)
    by (apply authority_no; [reflexivity | assumption ..]).
  unfold Url.urlparse. fold safe.
  destruct Hprefix as [-> | ->].
  - exists "http".
    change (Py.lstrip_by Url.c0_control_or_space
              ("http://" ++ host ++ port_part ++ tail))
      with ("http://" ++ host ++ port_part ++ tail).
    rewrite (Hfilter "http://" eq_refl).
    change (Url.split_scheme ("http://" ++ (host ++ port_part) ++ tail'))
      with ("http", "//" ++ (host ++ port_part) ++ tail').
    cbv beta iota zeta.
    change (Py.startswith "//" ("//" ++ (host ++ port_part) ++ tail'))
      with true.
    cbv iota.
    change (Url._splitnetloc ("//" ++ (host ++ port_part) ++ tail'))
      with (Py.until Url.netloc_delim (Py.drop 0 ((host ++ port_part) ++ tail'))).
    rewrite drop_0, Hnetloc, Hopen, Hclose. reflexivity.
  - exists "https".
    change (Py.lstrip_by Url.c0_control_or_space
              ("https://" ++ host ++ port_part ++ tail))
      with ("https://" ++ host ++ port_part ++ tail).
    rewrite (Hfilter "https://" eq_refl).
    change (Url.split_scheme ("https://" ++ (host ++ port_part) ++ tail'))
      with ("https", "//" ++ (host ++ port_part) ++ tail').
    cbv beta iota zeta.
    change (Py.startswith "//" ("//" ++ (host ++ port_part) ++ tail'))
      with true.
    cbv iota.
    change (Url._splitnetloc ("//" ++ (host ++ port_part) ++ tail'))
      with (Py.until Url.netloc_delim (Py.drop 0 ((host ++ port_part) ++ tail'))).
    rewrite drop_0, Hnetloc, Hopen, Hclose. reflexivity.
Qed.

Lemma hostname_plain prefix host port_part tail :
  prefix = "http://" \/ prefix = "https://" ->
  host <> EmptyString ->
  Py.all_chars plain_char host = true ->
  (port_part = EmptyString
   \/ exists port, port_part = ":" ++ port
                   /\ Py.all_chars plain_char port = true) ->
  url_tail tail ->
  url_hostname (prefix ++ host ++ port_part ++ tail) = Some (Py.lower host).
Proof.
  intros Hprefix Hne Hhost Hport Htail. unfold url_hostname.
  destruct (urlparse_plain prefix host port_part tail Hprefix Hhost Hport Htail)
    as [scheme ->].
  cbn [mbind option_bind]. unfold Url.hostname. cbn [Url.netloc].
  rewrite (authority_hostinfo host port_part Hhost Hport).
  destruct host as [| c r]; [congruence |].
  rewrite (partition_not_found "%")
    by (apply plain_no; [reflexivity | assumption]).
  change (Some (Py.lower (String c r) ++ EmptyString) = Some (Py.lower (String c r))).
  rewrite append_nil_r. reflexivity.
Qed.

Lemma guard_by_hostname url1 url2 host :
  url_hostname url1 = Some host -> url_hostname url2 = Some host ->
  _is_ssrf_blocked url1 = _is_ssrf_blocked url2.
Proof.
  unfold url_hostname, _is_ssrf_blocked.
  destruct (Url.urlparse url1) as [p1 |]; [| discriminate].
  destruct (Url.urlparse url2) as [p2 |]; [| discriminate].
  cbn [mbind option_bind]. intros -> ->. reflexivity.
Qed.

(** X18: the guard reads the host and nothing else.  In a URL
    [http(s)://host], [http(s)://host:port], with or without a path, a
    query or a fragment behind it, [urlparse] finds the host in lower
    case, and the verdict of the guard is the verdict on
    [http(s)://host]: no port and no path changes it. *)
Theorem guard_reads_host prefix host port tail :
  prefix = "http://" \/ prefix = "https://" ->
  host <> EmptyString ->
  Py.all_chars plain_char host = true ->
  Py.all_chars plain_char port = true ->
  url_tail tail ->
  url_hostname (prefix ++ host ++ tail) = Some (Py.lower host)
  /\ url_hostname (prefix ++ host ++ ":" ++ port ++ tail) = Some (Py.lower host)
  /\ _is_ssrf_blocked (prefix ++ host ++ tail) = _is_ssrf_blocked (prefix ++ host)
  /\ _is_ssrf_blocked (prefix ++ host ++ ":" ++ port ++ tail)
     = _is_ssrf_blocked (prefix ++ host).
Proof.
  intros Hprefix Hne Hhost Hport Htail.
  assert (Hbare : url_hostname (prefix ++ host) = Some (Py.lower host)).
  { pose proof (hostname_plain prefix host EmptyString EmptyString
                  Hprefix Hne Hhost (or_introl eq_refl) I) as H.
    change (EmptyString ++ EmptyString) with EmptyString in H.
    rewrite append_nil_r in H. exact H. }
  assert (Hpath : url_hostname (prefix ++ host ++ tail) = Some (Py.lower host)).
  { exact (hostname_plain prefix host EmptyString tail
             Hprefix Hne Hhost (or_introl eq_refl) Htail). }
  assert (Hfull : url_hostname (prefix ++ host ++ ":" ++ port ++ tail)
                  = Some (Py.lower host)).
  { apply (hostname_plain prefix host (":" ++ port) tail Hprefix Hne Hhost);
      [| exact Htail].
    right. exists port. split; [reflexivity | exact Hport]. }
  split; [exact Hpath |]. split; [exact Hfull |].
  split; eapply guard_by_hostname; eassumption.
Qed.

Lemma guard_reads_host_witness :
  url_hostname "http://LocalHost:8080/admin?x=1" = Some "localhost"
  /\ _is_ssrf_blocked "http://LocalHost:8080/admin?x=1"
     = _is_ssrf_blocked "http://LocalHost".
Proof.
  destruct (guard_reads_host "http://" "LocalHost" "8080" "/admin?x=1")
    as (_ & H1 & _ & H2);
    [left; reflexivity | discriminate | reflexivity | reflexivity
    | reflexivity |].
  split; [exact H1 | exact H2].
Defined.

(** X19: no port and no path makes a blocked host reachable.  When the
    guard blocks [http(s)://host], every call whose normalised URL is
    that host followed by a port, a path, a query or a fragment is
    rejected: nothing is requested and the cache is left alone. *)
Theorem blocked_host_any_port_path env t_lookup t_store input max_chars
    (cache : gmap string (string * Q)) prefix host port tail :
  requests_installed env = true ->
  prefix = "http://" \/ prefix = "https://" ->
  host <> EmptyString ->
  Py.all_chars plain_char host = true ->
  Py.all_chars plain_char port = true ->
  url_tail tail ->
  normalize_url input = prefix ++ host ++ tail
  \/ normalize_url input = prefix ++ host ++ ":" ++ port ++ tail ->
  _is_ssrf_blocked (prefix ++ host) = true ->
  fetch_webpage env t_lookup t_store input max_chars cache
  = {| returned := blocked_message (normalize_url input);
       cache_after := cache;
       requested := [] |}.
Proof.
  intros Hi Hprefix Hne Hhost Hport Htail Hshape Hb.
  apply fetch_blocked; [exact Hi |].
  assert (Hpath : url_hostname (prefix ++ host ++ tail) = Some (Py.lower host)).
  { exact (hostname_plain prefix host EmptyString tail
             Hprefix Hne Hhost (or_introl eq_refl) Htail). }
  assert (Hfull : url_hostname (prefix ++ host ++ ":" ++ port ++ tail)
                  = Some (Py.lower host)).
  { apply (hostname_plain prefix host (":" ++ port) tail Hprefix Hne Hhost);
      [| exact Htail].
    right. exists port. split; [reflexivity | exact Hport]. }
  assert (Hbare : url_hostname (prefix ++ host) = Some (Py.lower host)).
  { pose proof (hostname_plain prefix host EmptyString EmptyString
                  Hprefix Hne Hhost (or_introl eq_refl) I) as H.
    change (EmptyString ++ EmptyString) with EmptyString in H.
    rewrite append_nil_r in H. exact H. }
  rewrite <- Hb.
  destruct Hshape as [-> | ->]; eapply guard_by_hostname; eassumption.
Qed.

Lemma blocked_host_any_port_path_witness :
  fetch_webpage (env_with (page "<title>admin</title>" "https://localhost:8080/admin" NoLength) None)
    0 0 "localhost:8080/admin" DEFAULT_MAX_CHARS ∅
  = {| returned := blocked_message "https://localhost:8080/admin";
       cache_after := ∅;
       requested := [] |}.
Proof.
  apply (blocked_host_any_port_path _ 0 0 "localhost:8080/admin"
           DEFAULT_MAX_CHARS ∅ "https://" "localhost" "8080" "/admin").
  - reflexivity.
  - right. reflexivity.
  - discriminate.
  - reflexivity.
  - reflexivity.
  - reflexivity.
  - right. reflexivity.
  - vm_compute. reflexivity.
Defined.

(** ** The search tool *)

(** X20: the search library is never asked for fewer than one or more
    than ten results.  A call makes exactly one request to it, for the
    query as given and with [max_results] equal to [num_results] clamped
    to the range 1..10; without the library nothing is requested. *)
Theorem web_search_request_bounds query num_results :
  searched (web_search None query num_results) = []
  /\ forall text : DDGS,
       exists max_results,
         searched (web_search (Some text) query num_results)
         = [(query, max_results)]
         /\ 1 <= max_results <= MAX_SEARCH_RESULTS
         /\ (1 <= num_results <= MAX_SEARCH_RESULTS -> max_results = num_results)
         /\ (num_results < 1 -> max_results = 1)
         /\ (MAX_SEARCH_RESULTS < num_results -> max_results = MAX_SEARCH_RESULTS).
Proof.
  split; [reflexivity |]. intros text.
  exists (Z.max 1 (Z.min num_results MAX_SEARCH_RESULTS)). split.
  - unfold web_search.
    destruct (text query (Z.max 1 (Z.min num_results MAX_SEARCH_RESULTS)))
      as [[| r rest] | e]; reflexivity.
  - unfold MAX_SEARCH_RESULTS. lia.
Qed.

Lemma output_entries_length i results :
  length (output_entries i results) = (4 * length results)%nat.
Proof.
  revert i. induction results as [| r rest IH]; intros i; [reflexivity |].
  cbn [output_entries length]. unfold output_entry.
  cbn [app length]. rewrite IH. lia.
Qed.

Lemma output_entries_lookup i results k result :
  results !! k = Some result ->
  output_entries i results !! (4 * k)%nat
  = Some (Py.str_of_int (i + Z.of_nat k) ++ ". "
            ++ dict_get result "title" "(no title)")
  /\ output_entries i results !! (4 * k + 1)%nat
     = Some ("   URL: "
               ++ dict_get result "href" (dict_get result "link" "(no url)"))
  /\ output_entries i results !! (4 * k + 2)%nat
     = Some ("   "
               ++ dict_get result "body"
                    (dict_get result "snippet" "(no description)"))
  /\ output_entries i results !! (4 * k + 3)%nat = Some EmptyString.
Proof.
  revert i k. induction results as [| r rest IH]; intros i k Hk;
    [discriminate |].
  destruct k as [| k].
  - injection Hk as ->. rewrite Z.add_0_r. repeat split; reflexivity.
  - cbn [lookup list_lookup] in Hk.
    replace (4 * S k)%nat with (S (S (S (S (4 * k))))) by lia.
    cbn [output_entries]. unfold output_entry at 1 2 3 4.
    cbn [app Nat.add lookup list_lookup].
    destruct (IH (i + 1) k Hk) as (H0 & H1 & H2 & H3).
    replace (i + Z.of_nat (S k)) with (i + 1 + Z.of_nat k) by lia.
    repeat split; assumption.
Qed.

(** X21: every result the library returns is listed, in the order
    returned, numbered from 1, four lines to a result: the number and
    the title, the URL, the snippet, an empty line.  The title falls
    back to [(no title)], the URL from [href] to [link] to [(no url)],
    the snippet from [body] to [snippet] to [(no description)].  The list
    is not cut to the number of results asked for. *)
Theorem web_search_lists_results (text : DDGS) query num_results results :
  text query (Z.max 1 (Z.min num_results MAX_SEARCH_RESULTS)) = Ok results ->
  results <> [] ->
  exists lines,
    search_returned (web_search (Some text) query num_results)
    = Py.join Py.LF (("Search results for: " ++ query ++ Py.LF) :: lines)
    /\ length lines = (4 * length results)%nat
    /\ forall k result,
         results !! k = Some result ->
         lines !! (4 * k)%nat
         = Some (Py.str_of_int (Z.of_nat k + 1) ++ ". "
                   ++ dict_get result "title" "(no title)")
         /\ lines !! (4 * k + 1)%nat
            = Some ("   URL: "
                      ++ dict_get result "href"
                           (dict_get result "link" "(no url)"))
         /\ lines !! (4 * k + 2)%nat
            = Some ("   "
                      ++ dict_get result "body"
                           (dict_get result "snippet" "(no description)"))
         /\ lines !! (4 * k + 3)%nat = Some EmptyString.
Proof.
  intros Hok Hne. exists (output_entries 1 results).
  split; [| split].
  - unfold web_search. rewrite Hok.
    destruct results as [| r rest]; [congruence | reflexivity].
  - apply output_entries_length.
  - intros k result Hk.
    replace (Z.of_nat k + 1) with (1 + Z.of_nat k) by lia.
    exact (output_entries_lookup 1 results k result Hk).
Qed.

Lemma web_search_lists_results_witness :
  let results : list (gmap string string) :=
    [ {[ "title" := "A"; "href" := "https://a.example"; "body" := "first" ]};
      {[ "link" := "https://b.example"; "snippet" := "second" ]} ] in
  let text : DDGS := fun _ _ => Ok results in
  search_returned (web_search (Some text) "q" 1)
  = "Search results for: q" ++ Py.LF ++ Py.LF
    ++ "1. A" ++ Py.LF ++ "   URL: https://a.example" ++ Py.LF
    ++ "   first" ++ Py.LF ++ Py.LF
    ++ "2. (no title)" ++ Py.LF ++ "   URL: https://b.example" ++ Py.LF
    ++ "   second" ++ Py.LF.
Proof.
  intros results text.
  destruct (web_search_lists_results text "q" 1 results eq_refl)
    as (lines & -> & Hlen & Hlines); [discriminate |].
  destruct (Hlines 0%nat _ eq_refl) as (H0 & H1 & H2 & H3).
  destruct (Hlines 1%nat _ eq_refl) as (H4 & H5 & H6 & H7).
  do 8 (destruct lines as [| ? lines]; [discriminate Hlen |]).
  destruct lines; [| discriminate Hlen].
  cbn in H0, H1, H2, H3, H4, H5, H6, H7.
  injection H0 as ->. injection H1 as ->. injection H2 as ->.
  injection H3 as ->. injection H4 as ->. injection H5 as ->.
  injection H6 as ->. injection H7 as ->.
  vm_compute. reflexivity.
Defined.

(** X22: a result of the search tool starts with [Error] exactly when
    the library is missing or its call failed.  An empty list of results
    is no error: it gives [No results found for: ] and the query. *)
Theorem web_search_error_iff ddgs query num_results :
  let call := web_search ddgs query num_results in
  let max_results := Z.max 1 (Z.min num_results MAX_SEARCH_RESULTS) in
  (Py.startswith "Error" (search_returned call) = true
   <-> ddgs = None
       \/ exists (text : DDGS) e,
            ddgs = Some text /\ text query max_results = Raise e)
  /\ (forall text : DDGS,
        ddgs = Some text -> text query max_results = Ok [] ->
        search_returned call = "No results found for: " ++ query).
Proof.
  intros call max_results. subst call max_results. split.
  - unfold web_search. destruct ddgs as [text |].
    + destruct (text query (Z.max 1 (Z.min num_results MAX_SEARCH_RESULTS)))
        as [[| r rest] | e] eqn:Hcall.
      * split; [discriminate |].
        intros [H | (text' & e & [= <-] & H)]; congruence.
      * split; [discriminate |].
        intros [H | (text' & e & [= <-] & H)]; congruence.
      * split; [eauto | reflexivity].
    + split; [auto | reflexivity].
  - intros text -> Hcall. unfold web_search. rewrite Hcall. reflexivity.
Qed.

Lemma web_search_request_bounds_witness :
  let text : DDGS := fun _ _ => Ok [] in
  searched (web_search (Some text) "q" 50) = [("q", 10)]
  /\ searched (web_search (Some text) "q" (-3)) = [("q", 1)].
Proof.
  intros text. split.
  - destruct (proj2 (web_search_request_bounds "q" 50) text)
      as (max_results & -> & _ & _ & _ & Hhigh).
    rewrite Hhigh by (unfold MAX_SEARCH_RESULTS; lia). reflexivity.
  - destruct (proj2 (web_search_request_bounds "q" (-3)) text)
      as (max_results & -> & _ & _ & Hlow & _).
    rewrite Hlow by lia. reflexivity.
Defined.

Lemma web_search_error_iff_witness :
  let text : DDGS := fun _ _ => Ok [] in
  search_returned (web_search (Some text) "q" 5) = "No results found for: q".
Proof.
  intros text.
  apply (proj2 (web_search_error_iff (Some text) "q" 5) text);
    reflexivity.
Defined.

(** *** Plain text through the fallback *)

Lemma re_sub_unmatched match_at repl s :
  (forall w x, s = w ++ x -> match_at x = None) ->
  re_sub match_at repl O s = s.
Proof.
  induction s as [| c r IH]; intros H; [reflexivity |].
  rewrite re_sub_keeps by (apply (H EmptyString); reflexivity).
  rewrite IH; [reflexivity |].
  intros w x ->. apply (H (String c w)). reflexivity.
Qed.

Lemma tag_match_at_suffix w x :
  has_tag (w ++ x) = false -> tag_match_at x = None.
Proof.
  intros H. apply has_tag_suffix in H.
  destruct x as [| c r]; [reflexivity |].
  apply has_tag_cons in H as [H _]. exact H.
Qed.

Lemma strip_prefix_ci_suffix pat s rest :
  strip_prefix_ci pat s = Some rest -> exists w, s = w ++ rest.
Proof.
  revert s. induction pat as [| p ps IH]; intros s H.
  - injection H as ->. exists EmptyString. reflexivity.
  - destruct s as [| c r]; [discriminate |].
    cbn [strip_prefix_ci] in H.
    destruct (Ascii.eqb (Py.lower_char p) (Py.lower_char c)); [| discriminate].
    destruct (IH _ H) as [w ->]. exists (String c w). reflexivity.
Qed.

Lemma from_nonempty_contains s :
  Py.from is_gt s <> EmptyString -> Py.contains_char ">" s = true.
Proof.
  intros H. destruct (Py.contains_char ">" s) eqn:Hc; [reflexivity |].
  apply from_gt_empty in Hc. congruence.
Qed.

(** Where a [<script ...>...</script>] block starts, a tag starts. *)
Lemma block_needs_tag n0 name x :
  Py.lower_char n0 <> ">"%char ->
  tag_match_at x = None ->
  block_match_at (String n0 name) x = None.
Proof.
  intros Hn Htag. unfold block_match_at.
  change ("<" ++ String n0 name) with (String "<" (String n0 name)).
  destruct x as [| c r]; [reflexivity |].
  cbn [strip_prefix_ci].
  destruct (Ascii.eqb_spec (Py.lower_char "<") (Py.lower_char c)) as [Hc | _];
    [| reflexivity].
  symmetry in Hc. apply lower_char_fixes in Hc; [| vm_compute; reflexivity].
  change (Py.lower_char "<") with "<"%char in Hc. subst c.
  destruct r as [| d r']; [reflexivity |].
  cbn [strip_prefix_ci].
  destruct (Ascii.eqb_spec (Py.lower_char n0) (Py.lower_char d)) as [Hd | _];
    [| reflexivity].
  destruct (strip_prefix_ci name r') as [after_name |] eqn:Hp;
    [| reflexivity].
  cbn [mbind option_bind].
  destruct (Py.from is_gt after_name) as [| g inner] eqn:Hfrom;
    [reflexivity |].
  exfalso.
  apply tag_match_at_none in Htag as [Htag | [Htag | Htag]].
  - discriminate Htag.
  - cbn [Py.until] in Htag. destruct (is_gt d) eqn:Hgt; [| discriminate].
    unfold is_gt in Hgt. apply Ascii.eqb_eq in Hgt. subst d.
    apply Hn. rewrite Hd. reflexivity.
  - destruct (strip_prefix_ci_suffix _ _ _ Hp) as [w ->].
    cbn [Py.contains_char] in Htag. apply orb_false_elim in Htag as [_ Htag].
    rewrite contains_char_app in Htag.
    apply orb_false_elim in Htag as [_ Htag].
    rewrite from_nonempty_contains in Htag; [discriminate |].
    rewrite Hfrom. discriminate.
Qed.

Lemma single_spaced_head s :
  single_spaced true s = true ->
  Py.from (fun c => negb (Py.isspace c)) s = s.
Proof.
  destruct s as [| c r]; [reflexivity |].
  cbn [single_spaced Py.from]. destruct (Py.isspace c); [| reflexivity].
  rewrite andb_false_r. discriminate.
Qed.

Lemma collapse_spaces_unchanged b s :
  single_spaced b s = true -> re_sub space_match_at " " O s = s.
Proof.
  revert b. induction s as [| c r IH]; intros b H; [reflexivity |].
  rewrite collapse_spaces_cons. cbn [single_spaced] in H.
  destruct (Py.isspace c).
  - apply andb_prop in H as [Hc Hr]. apply andb_prop in Hc as [Hc _].
    apply Ascii.eqb_eq in Hc. subst c.
    rewrite (single_spaced_head _ Hr), (IH _ Hr). reflexivity.
  - rewrite (IH _ H). reflexivity.
Qed.

Lemma plain_text_unchanged env text :
  bs4 env = None ->
  has_tag text = false ->
  single_spaced true text = true ->
  Py.strip text = text ->
  _extract_text env text = Ok text.
Proof.
  intros Hsoup Htag Hspace Hstrip. unfold _extract_text. rewrite Hsoup.
  assert (Hblock : forall n0 name,
            Py.lower_char n0 <> ">"%char ->
            re_sub (block_match_at (String n0 name)) EmptyString O text = text).
  { intros n0 name Hn. apply re_sub_unmatched. intros w x ->.
    apply block_needs_tag; [exact Hn |].
    exact (tag_match_at_suffix _ _ Htag). }
  change "script" with (String "s" "cript").
  change "style" with (String "s" "tyle").
  rewrite !Hblock by discriminate.
  rewrite (re_sub_unmatched tag_match_at)
    by (intros w x ->; exact (tag_match_at_suffix _ _ Htag)).
  rewrite (collapse_spaces_unchanged _ _ Hspace), Hstrip. reflexivity.
Qed.

(** X23: the fallback extractor leaves plain text alone, and so it is
    idempotent.  A text without a tag, with single spaces as its only
    white space and none at its ends, is returned as it is; the text the
    fallback returns is such a text, hence extracting from it again
    changes nothing. *)
Theorem extract_text_fallback_idempotent env html text :
  bs4 env = None ->
  _extract_text env html = Ok text ->
  _extract_text env text = Ok text
  /\ forall plain,
       has_tag plain = false ->
       single_spaced true plain = true ->
       Py.strip plain = plain ->
       _extract_text env plain = Ok plain.
Proof.
  intros Hsoup Hex. split.
  - unfold _extract_text in Hex. rewrite Hsoup in Hex. injection Hex as <-.
    apply plain_text_unchanged; [exact Hsoup | | |].
    + apply strip_no_tag, collapse_spaces_no_tag, tags_all_replaced.
    + eapply single_spaced_strip, collapse_spaces_single_spaced.
    + apply strip_idem.
  - intros plain. apply plain_text_unchanged, Hsoup.
Qed.

Lemma extract_text_fallback_idempotent_witness :
  _extract_text env_bare "1 < 2 and <script is no tag"
  = Ok "1 < 2 and <script is no tag".
Proof.
  destruct (extract_text_fallback_idempotent env_bare
              "<p>1 &lt; 2</p>" "1 &lt; 2" eq_refl) as [_ Hplain];
    [vm_compute; reflexivity |].
  apply Hplain; vm_compute; reflexivity.
Defined.

(** ** An invariant of the cache *)

Lemma pages_only_get_cached now url (cache : gmap string (string * Q)) :
  pages_only cache -> pages_only (_get_cached now url cache).2.
Proof.
  intros H.
  destruct (get_cached_cases now url cache) as [-> | [_ ->]]; [exact H |].
  apply map_Forall_delete, H.
Qed.

Lemma startswith_app_both p q s :
  Py.startswith (p ++ q) (p ++ s) = Py.startswith q s.
Proof.
  induction p as [| c r IH]; [reflexivity |].
  change (Py.startswith (String c (r ++ q)) (String c (r ++ s))
          = Py.startswith q s).
  cbn [Py.startswith]. rewrite Ascii.eqb_refl, IH. reflexivity.
Qed.

(** X24: the cache holds pages only.  If every content of the cache
    starts with the title line, so does every content after a call of
    either tool, whatever the call did; the empty cache at start-up is
    such a cache.  A result served from such a cache is therefore
    [(cached)], an empty line and a page: never an error, and never a
    result that was itself served from the cache. *)
Theorem cache_holds_pages_only env t_lookup t_store url max_chars
    (cache : gmap string (string * Q)) :
  pages_only cache ->
  let call := fetch_webpage env t_lookup t_store url max_chars cache in
  pages_only (cache_after call)
  /\ pages_only (cache_after (clear_web_cache cache))
  /\ (Py.startswith "(cached)" (returned call) = true ->
      Py.startswith ("(cached)" ++ Py.LF ++ Py.LF ++ "Title: ") (returned call)
      = true).
Proof.
  intros Hcache call. subst call.
  split; [| split; [apply map_Forall_empty |]].
  - pose proof (pages_only_get_cached t_lookup (normalize_url url) cache Hcache)
      as Hseen.
    destruct (fetch_cache_after env t_lookup t_store url max_chars cache)
      as [-> | [-> | (Htitle & _ & ->)]]; [exact Hcache | exact Hseen |].
    apply map_Forall_insert_2; [exact Htitle | exact Hseen].
  - unfold fetch_webpage.
    destruct (requests_installed env); simpl negb; cbv iota; [| discriminate].
    destruct (_is_ssrf_blocked (normalize_url url)); [discriminate |].
    destruct (_get_cached t_lookup (normalize_url url) cache)
      as [cached cache'] eqn:Hget.
    destruct cached as [[| c0 rest] |].
    2: { intros _. cbn [returned].
         change ("(cached)" ++ Py.LF ++ Py.LF ++ String c0 rest)
           with (("(cached)" ++ Py.LF ++ Py.LF) ++ String c0 rest).
         change ("(cached)" ++ Py.LF ++ Py.LF ++ "Title: ")
           with (("(cached)" ++ Py.LF ++ Py.LF) ++ "Title: ").
         rewrite startswith_app_both.
         unfold _get_cached in Hget.
         destruct (cache !! normalize_url url) as [[c ts] |] eqn:Hl;
           [| discriminate].
         destruct (Qlt_bool _ _); [| discriminate].
         injection Hget as -> _.
         exact (Hcache _ _ Hl). }
    all: repeat case_match; cbn [returned]; discriminate.
Qed.

Lemma cache_holds_pages_only_witness :
  let env := env_with (page "<title>T</title>x" "https://example.com/" NoLength) None in
  let first := fetch_webpage env 0 1 "example.com" DEFAULT_MAX_CHARS ∅ in
  let again :=
    fetch_webpage env 2 3 "example.com" DEFAULT_MAX_CHARS (cache_after first) in
  pages_only (cache_after again)
  /\ Py.startswith ("(cached)" ++ Py.LF ++ Py.LF ++ "Title: ") (returned again)
     = true.
Proof.
  intros env first again.
  assert (Hfirst : pages_only (cache_after first)).
  { apply (cache_holds_pages_only env 0 1 "example.com" DEFAULT_MAX_CHARS ∅).
    apply map_Forall_empty. }
  destruct (cache_holds_pages_only env 2 3 "example.com" DEFAULT_MAX_CHARS
              (cache_after first) Hfirst) as (Hagain & _ & Hform).
  split; [exact Hagain | apply Hform; vm_compute; reflexivity].
Defined.
